(** * userfm: the training engine (diffusion.py) and the checkpoint callback
    (callbacks.py), embedded and verified.

    Numbers are modelled by the real numbers of the Standard Library: the
    arithmetic of the program is the exact one, rounding of floats is not
    modelled.  External collaborators (the score model, the diffusion process,
    the optimizer, the SDE integrator, the random number generator) are fields
    of records, as they are attributes of the objects in the source. *)

From Stdlib Require Import Reals Lra Lia ZArith List String Ascii Bool Arith.
Import ListNotations.

Set Implicit Arguments.

(** ** Python results: a value or a raised exception *)

Module Py.

Inductive exn : Type :=
| ValueError (msg : string)
| TypeError
| KeyError (key : string)
| IndexError
| AttributeError (attr : string)
| ZeroDivisionError
| StopIteration
| OSError (path : string)
| FileNotFoundError (path : string)
| EinopsError (msg : string).

Inductive result (A : Type) : Type :=
| Ok (a : A)
| Raise (e : exn).

Arguments Ok {A} a.
Arguments Raise {A} e.

Definition bind {A B : Type} (r : result A) (k : A -> result B) : result B :=
  match r with
  | Ok a => k a
  | Raise e => Raise e
  end.

Definition fmap {A B : Type} (f : A -> B) (r : result A) : result B :=
  bind r (fun a => Ok (f a)).

Definition is_ok {A : Type} (r : result A) : bool :=
  match r with
  | Ok _ => true
  | Raise _ => false
  end.

(** Reading an attribute that may not have been assigned yet. *)
Definition getattr {A : Type} (name : string) (slot : option A) : result A :=
  match slot with
  | Some a => Ok a
  | None => Raise (AttributeError name)
  end.

(** [d[k]] on a dict kept as its item list. *)
Fixpoint getitem {A : Type} (d : list (string * A)) (k : string) : result A :=
  match d with
  | [] => Raise (KeyError k)
  | (k', v) :: rest => if String.eqb k' k then Ok v else getitem rest k
  end.

End Py.

Import Py.

Declare Scope py_scope.
Delimit Scope py_scope with py.
Notation "x <- r ;; k" := (Py.bind r (fun x => k))
  (at level 61, r at next level, right associativity) : py_scope.
Notation "' pat <- r ;; k" := (Py.bind r (fun x => match x with pat => k end))
  (at level 61, pat pattern, r at next level, right associativity) : py_scope.

(** ** pathlib.PurePosixPath, as far as the callback uses it *)

Module Pathlib.

Open Scope string_scope.

Definition sep : ascii := "/"%char.
Definition dot : ascii := "."%char.

(** [s.split(c)] *)
Fixpoint split (c : ascii) (s : string) : list string :=
  match s with
  | EmptyString => [EmptyString]
  | String a r =>
      if Ascii.eqb a c then EmptyString :: split c r
      else match split c r with
           | h :: t => String a h :: t
           | [] => [String a EmptyString]
           end
  end.

(** [s.rfind(c)], [None] for -1 *)
Fixpoint rfind (c : ascii) (s : string) : option nat :=
  match s with
  | EmptyString => None
  | String a r =>
      match rfind c r with
      | Some i => Some (S i)
      | None => if Ascii.eqb a c then Some 0 else None
      end
  end.

(** [sep.join(l)] *)
Fixpoint join (l : list string) : string :=
  match l with
  | [] => ""
  | [x] => x
  | x :: rest => x ++ String sep (join rest)
  end.

(** A parsed path: the root ("", "/" or "//") and the parts after it. *)
Record PurePath : Type := mkPath { root : string; tail : list string }.

(** posixpath.splitroot, without the (empty) drive *)
Definition splitroot (p : string) : string * string :=
  match p with
  | String a r =>
      if Ascii.eqb a sep then
        match r with
        | String b r' =>
            if Ascii.eqb b sep then
              match r' with
              | String c _ => if Ascii.eqb c sep then ("/", r) else ("//", r')
              | EmptyString => ("//", r')
              end
            else ("/", r)
        | EmptyString => ("/", r)
        end
      else ("", p)
  | EmptyString => ("", p)
  end.

Definition is_part (x : string) : bool :=
  negb (String.eqb x "") && negb (String.eqb x ".").

(** [Path(p)]: the root, and the components that are neither empty nor "." *)
Definition Path (p : string) : PurePath :=
  let (rt, rel) := splitroot p in
  mkPath rt (filter is_part (split sep rel)).

(** [str(p)] *)
Definition fspath (p : PurePath) : string :=
  match root p, tail p with
  | "", [] => "."
  | rt, parts => rt ++ join parts
  end.

(** [p.name] *)
Definition name (p : PurePath) : string := last (tail p) "".

(** [p.parent] *)
Definition parent (p : PurePath) : PurePath :=
  mkPath (root p) (removelast (tail p)).

(** [p.stem]: the name up to its last dot, when that dot is neither the first
    nor the last character of the name. *)
Definition stem (p : PurePath) : string :=
  let n := name p in
  match rfind dot n with
  | Some i =>
      if (0 <? i)%nat && (i <? String.length n - 1)%nat then substring 0 i n else n
  | None => n
  end.

(** [p.suffix] *)
Definition suffix (p : PurePath) : string :=
  let n := name p in
  match rfind dot n with
  | Some i =>
      if (0 <? i)%nat && (i <? String.length n - 1)%nat
      then substring i (String.length n - i) n else ""
  | None => ""
  end.

(** [p / s]: an absolute [s] replaces [p], a relative one is appended. *)
Definition truediv (p : PurePath) (s : string) : PurePath :=
  let q := Path s in
  if String.eqb (root q) "" then mkPath (root p) (tail p ++ tail q) else q.

Definition eqb (p q : PurePath) : bool :=
  String.eqb (fspath p) (fspath q).

End Pathlib.

(** ** jax.numpy arrays: a shape and the element at each index

    Binary operations follow the broadcasting rule of numpy: shapes are
    aligned at their last axis, and two sizes are compatible when they are
    equal or one of them is 1. *)

Module Jnp.

Open Scope R_scope.

Record array : Type := mkArray { shape : list nat; item : list nat -> R }.

(** An index is valid for a shape when it has one position per axis, each
    below the size of its axis. *)
Definition valid_index (s idx : list nat) : Prop := Forall2 lt idx s.

(** Arrays are compared by shape and by their elements at valid indices. *)
Definition array_eq (a b : array) : Prop :=
  shape a = shape b /\ forall idx, valid_index (shape a) idx -> item a idx = item b idx.

Definition size (s : list nat) : nat := fold_right Nat.mul 1%nat s.

(** Broadcasting of two shapes given last axis first. *)
Fixpoint broadcast_rev (s1 s2 : list nat) : option (list nat) :=
  match s1, s2 with
  | [], _ => Some s2
  | _, [] => Some s1
  | a :: s1', b :: s2' =>
      match broadcast_rev s1' s2' with
      | None => None
      | Some r =>
          if (a =? b)%nat then Some (a :: r)
          else if (a =? 1)%nat then Some (b :: r)
          else if (b =? 1)%nat then Some (a :: r)
          else None
      end
  end.

Definition broadcast_shapes (s1 s2 : list nat) : option (list nat) :=
  option_map (@rev nat) (broadcast_rev (rev s1) (rev s2)).

(** The index of an operand of shape [s] that the index [idx] of the
    broadcast result reads: the last [length s] positions of [idx], with 0 on
    the axes of size 1. *)
Definition project (s idx : list nat) : list nat :=
  map (fun di => if (fst di =? 1)%nat then 0%nat else snd di)
      (combine s (skipn (List.length idx - List.length s) idx)).

Definition binop (f : R -> R -> R) (a b : array) : result array :=
  match broadcast_shapes (shape a) (shape b) with
  | Some s =>
      Ok (mkArray s (fun idx => f (item a (project (shape a) idx))
                                  (item b (project (shape b) idx))))
  | None => Raise (ValueError "Incompatible shapes for broadcasting")
  end.

Definition add := binop Rplus.
Definition sub := binop Rminus.
Definition mul := binop Rmult.
Definition div := binop Rdiv.

(** Operations with a Python scalar keep the shape of the array. *)
Definition map (f : R -> R) (a : array) : array :=
  mkArray (shape a) (fun idx => f (item a idx)).

Definition add_scalar (a : array) (c : R) : array := map (fun v => v + c) a.
Definition scalar_add (c : R) (a : array) : array := map (fun v => c + v) a.
Definition mul_scalar (a : array) (c : R) : array := map (fun v => v * c) a.
Definition div_scalar (a : array) (c : R) : array := map (fun v => v / c) a.
Definition scalar_div (c : R) (a : array) : array := map (fun v => c / v) a.
Definition square (a : array) : array := map (fun v => v ^ 2) a.
Definition sqrt (a : array) : array := map R_sqrt.sqrt a.

(** [jnp.remainder(a, m)] for a scalar [m]: the remainder of the floored
    division. *)
Definition remainder (a : array) (m : R) : array :=
  map (fun v => v - m * IZR (Zfloor (v / m))) a.

(** [jnp.ones(s) * v] *)
Definition full (s : list nat) (v : R) : array := mkArray s (fun _ => v).

(** [jnp.linspace(start, stop, num)]: [num] points from [start] to [stop],
    both ends included, so the stride is [(stop - start) / (num - 1)]. *)
Definition linspace (start stop : R) (num : nat) : array :=
  mkArray [num]
    (fun idx =>
       if (num <=? 1)%nat then start
       else start + INR (hd 0%nat idx) * ((stop - start) / INR (num - 1))).

(** [a.shape[0]] *)
Definition shape0 (a : array) : result nat :=
  match shape a with
  | d :: _ => Ok d
  | [] => Raise IndexError
  end.

(** [a.squeeze((1, 2))] *)
Definition squeeze12 (a : array) : result array :=
  match shape a with
  | d0 :: 1%nat :: 1%nat :: rest =>
      Ok (mkArray (d0 :: rest)
            (fun idx => match idx with
                        | i0 :: r => item a (i0 :: 0%nat :: 0%nat :: r)
                        | [] => item a []
                        end))
  | _ => Raise (ValueError "cannot squeeze an axis whose size is not one")
  end.

(** [a[:, None, None]] *)
Definition expand12 (a : array) : result array :=
  match shape a with
  | d0 :: rest =>
      Ok (mkArray (d0 :: 1%nat :: 1%nat :: rest)
            (fun idx => match idx with
                        | i0 :: _ :: _ :: r => item a (i0 :: r)
                        | _ => item a idx
                        end))
  | [] => Raise IndexError
  end.

(** All valid indices of a shape, in row-major order. *)
Fixpoint indices (s : list nat) : list (list nat) :=
  match s with
  | [] => [[]]
  | d :: r => flat_map (fun i => List.map (cons i) (indices r)) (seq 0 d)
  end.

Definition sum_all (a : array) : R :=
  fold_right Rplus 0 (List.map (item a) (indices (shape a))).

(** [jnp.mean(a)].  On an array without elements jax returns nan, which the
    reals do not have; the quotient below is then 0 / 0.  A statement about
    the value of a mean therefore asks for an array with elements. *)
Definition mean (a : array) : R := sum_all a / INR (size (shape a)).

End Jnp.

(** ** Parameter trees: nested dicts with arrays at the leaves

    A dict node is kept as its item list in the order jax flattens it (by
    key), so two dicts have the same keys when their item lists carry the same
    keys position by position. *)

Module PyTree.

#[warnings="-register-all"]
Inductive pytree (A : Type) : Type :=
| Leaf (a : A)
| Dict (items : list (string * pytree A)).

Arguments Leaf {A} a.
Arguments Dict {A} items.

(** [jax.tree.map(f, t)] *)
Fixpoint tree_map {A B : Type} (f : A -> B) (t : pytree A) : pytree B :=
  match t with
  | Leaf a => Leaf (f a)
  | Dict items => Dict (List.map (fun kv => (fst kv, tree_map f (snd kv))) items)
  end.

(** The items of two dicts combined position by position: the keys must
    agree, the values are combined by [g]. *)
Definition map2_items {A B C : Type} (g : A -> B -> result C)
  : list (string * A) -> list (string * B) -> result (list (string * C)) :=
  fix go l1 l2 :=
    match l1, l2 with
    | [], [] => Ok []
    | (k1, v1) :: r1, (k2, v2) :: r2 =>
        if String.eqb k1 k2 then
          Py.bind (g v1 v2) (fun v =>
          Py.bind (go r1 r2) (fun r => Ok ((k1, v) :: r)))
        else Raise (ValueError "Dict key mismatch")
    | _, _ => Raise (ValueError "Dict key mismatch")
    end.

(** [jax.tree.map(f, t1, t2)]: the result has the structure of [t1]; [t2]
    must have the same dict keys wherever [t1] has a dict.  Where [t1] has a
    leaf and [t2] a dict, [f] receives the dict, which the arithmetic [f] used
    here rejects. *)
Fixpoint tree_map2 {A B C : Type} (f : A -> B -> result C)
    (t1 : pytree A) (t2 : pytree B) : result (pytree C) :=
  match t1, t2 with
  | Leaf a, Leaf b => Py.fmap Leaf (f a b)
  | Leaf _, Dict _ => Raise TypeError
  | Dict _, Leaf _ => Raise (ValueError "Tree structure mismatch")
  | Dict l1, Dict l2 => Py.fmap Dict (map2_items (tree_map2 f) l1 l2)
  end.

(** The value stored under a key of an item list (the first one). *)
Fixpoint lookup {V : Type} (items : list (string * V)) (k : string) : option V :=
  match items with
  | [] => None
  | (k', v) :: rest => if String.eqb k' k then Some v else lookup rest k
  end.

(** The leaf reached by following a path of keys from the root. *)
Fixpoint leaf_at {A : Type} (t : pytree A) (path : list string) : option A :=
  match path, t with
  | [], Leaf a => Some a
  | k :: rest, Dict items =>
      (fix find (l : list (string * pytree A)) : option A :=
         match l with
         | [] => None
         | (k', v) :: l' => if String.eqb k' k then leaf_at v rest else find l'
         end) items
  | _, _ => None
  end.

End PyTree.

(** ** diffusion.py: the training engine [JaxLightning] *)

Module Diffusion.

Import Jnp PyTree.
Open Scope string_scope.
Open Scope py_scope.

(** A jax PRNG key: two 32-bit words. *)
Definition PRNGKey : Type := (N * N)%type.

Definition params_t : Type := pytree array.

(** The time argument of a score callback: a Python float or an array. *)
Inductive time_arg : Type :=
| PyFloat (v : R)
| TimeArray (a : array).

Definition score_fn_t : Type := array -> time_arg -> result array.

(** [self.diffusion]: the diffusion process returned by
    [sde_diffusion.get_sde_diffusion]. *)
Record DiffusionProcess : Type := {
  tmin : R;
  tmax : R;
  sigma : array -> array;
  scale : array -> array;
  noise_input : array -> array -> PRNGKey -> array;
  noise_score : array -> array -> array -> array;
  covsqrt_inverse : array -> array
}.

(** [self.model]: the score network. *)
Record ScoreModel : Type := {
  init : PRNGKey -> array -> array -> bool -> option array -> params_t;
  apply : params_t -> array -> array -> bool -> option array -> result array
}.

(** Modelled from the spec: the enumeration [cs.CkptMonitor] is declared in
    userfm/cs.py, which is not among the sources.  The engine tells its member
    [VAL_RELATIVE_ERROR_EMA] from every other one, of which it reads
    [str(value)], the argument of [Monitor] here. *)
Inductive CkptMonitor : Type :=
| VAL_RELATIVE_ERROR_EMA
| Monitor (value : string).

(** [self.cfg], the entries the engine reads. *)
Record Config : Type := {
  epochs : Z;
  ema_folding_count : Z;
  learning_rate : R;
  time_step_count_sampling : nat;
  ckpt_monitor : CkptMonitor
}.

Record Dataloaders : Type := {
  train : list array;
  val : list array;
  predict : list (list nat)
}.

(** What the engine reads and writes of [self.trainer]. *)
Record Trainer : Type := {
  sanity_checking : bool;
  callback_metrics : list (string * R);
  global_step : nat;
  is_global_zero : bool;
  loggers : list nat
}.

(** [predict_event_constraint]: the object whose attribute [constraint] is
    handed to [samplers.event_scores]. *)
Record EventConstraint : Type := {
  constraint : array -> array
}.

Section WithOptState.

(** The state of the optimizer is opaque to the engine. *)
Variable OptState : Type.

(** An optax gradient transformation. *)
Record Optimizer : Type := {
  opt_init : params_t -> OptState;
  update : params_t -> OptState -> params_t * OptState
}.

(** The libraries the engine calls: jax.random, jax.grad, optax.adam,
    userdiffusion.samplers and userfm.utils. *)
Record Env : Type := {
  split : PRNGKey -> PRNGKey * PRNGKey;
  uniform : PRNGKey -> R;
  grad : (params_t -> result (R * list (string * R))) -> params_t -> params_t;
  adam : R -> Optimizer;
  sde_sample : DiffusionProcess -> score_fn_t -> PRNGKey -> list nat -> nat -> bool
               -> result array;
  samplers_compute_nll : DiffusionProcess -> score_fn_t -> PRNGKey -> array
                         -> result array;
  event_scores : DiffusionProcess -> score_fn_t -> (array -> array) -> R -> score_fn_t;
  relative_error : array -> array -> array
}.

Record JaxLightning : Type := {
  cfg : Config;
  key : PRNGKey;
  dataloaders : Dataloaders;
  train_data_std : R;
  x_shape : list nat;
  cond_fn : array -> option array;
  model : ScoreModel;
  predict_sample_event_conditioned : bool;
  predict_event_constraint : option EventConstraint;
  diffusion : DiffusionProcess;
  ema_ts : R;
  params : option params_t;
  params_ema : option params_t;
  optimizer : option Optimizer;
  opt_state : option OptState;
  trainer : Trainer
}.

Variable env : Env.

(** [__init__]: the batch shape is read off the first training batch, and
    [ema_ts] is the quotient of the two configuration entries. *)
Definition __init__ (cfg : Config) (key : PRNGKey) (dataloaders : Dataloaders)
    (train_data_std : R) (cond_fn : array -> option array) (model : ScoreModel)
    (predict_sample_event_conditioned : bool)
    (predict_event_constraint : option EventConstraint)
    (diffusion : DiffusionProcess) (trainer : Trainer) : result JaxLightning :=
  first <- match train dataloaders with
           | b :: _ => Ok b
           | [] => Raise StopIteration
           end ;;
  ema_ts <- (if (ema_folding_count cfg =? 0)%Z then Raise ZeroDivisionError
             else Ok (IZR (epochs cfg) / IZR (ema_folding_count cfg))%R) ;;
  Ok {| cfg := cfg; key := key; dataloaders := dataloaders;
        train_data_std := train_data_std; x_shape := shape first;
        cond_fn := cond_fn; model := model;
        predict_sample_event_conditioned := predict_sample_event_conditioned;
        predict_event_constraint := predict_event_constraint;
        diffusion := diffusion; ema_ts := ema_ts;
        params := None; params_ema := None;
        optimizer := None; opt_state := None; trainer := trainer |}.

Definition set_key (self : JaxLightning) (k : PRNGKey) : JaxLightning :=
  {| cfg := cfg self; key := k; dataloaders := dataloaders self;
     train_data_std := train_data_std self; x_shape := x_shape self;
     cond_fn := cond_fn self; model := model self;
     predict_sample_event_conditioned := predict_sample_event_conditioned self;
     predict_event_constraint := predict_event_constraint self;
     diffusion := diffusion self; ema_ts := ema_ts self;
     params := params self; params_ema := params_ema self;
     optimizer := optimizer self; opt_state := opt_state self;
     trainer := trainer self |}.

Definition set_params (self : JaxLightning) (p e : option params_t) : JaxLightning :=
  {| cfg := cfg self; key := key self; dataloaders := dataloaders self;
     train_data_std := train_data_std self; x_shape := x_shape self;
     cond_fn := cond_fn self; model := model self;
     predict_sample_event_conditioned := predict_sample_event_conditioned self;
     predict_event_constraint := predict_event_constraint self;
     diffusion := diffusion self; ema_ts := ema_ts self;
     params := p; params_ema := e;
     optimizer := optimizer self; opt_state := opt_state self;
     trainer := trainer self |}.

Definition set_optimizer (self : JaxLightning) (o : option Optimizer)
    (s : option OptState) : JaxLightning :=
  {| cfg := cfg self; key := key self; dataloaders := dataloaders self;
     train_data_std := train_data_std self; x_shape := x_shape self;
     cond_fn := cond_fn self; model := model self;
     predict_sample_event_conditioned := predict_sample_event_conditioned self;
     predict_event_constraint := predict_event_constraint self;
     diffusion := diffusion self; ema_ts := ema_ts self;
     params := params self; params_ema := params_ema self;
     optimizer := o; opt_state := s;
     trainer := trainer self |}.

Definition set_trainer (self : JaxLightning) (t : Trainer) : JaxLightning :=
  {| cfg := cfg self; key := key self; dataloaders := dataloaders self;
     train_data_std := train_data_std self; x_shape := x_shape self;
     cond_fn := cond_fn self; model := model self;
     predict_sample_event_conditioned := predict_sample_event_conditioned self;
     predict_event_constraint := predict_event_constraint self;
     diffusion := diffusion self; ema_ts := ema_ts self;
     params := params self; params_ema := params_ema self;
     optimizer := optimizer self; opt_state := opt_state self;
     trainer := t |}.

(** [s[0]] on a shape *)
Definition first_axis (s : list nat) : result nat :=
  match s with
  | d :: _ => Ok d
  | [] => Raise IndexError
  end.

Definition model_init (self : JaxLightning) (key : PRNGKey) (x_shape : list nat)
    (cond_fn : array -> option array) (model : ScoreModel) : result params_t :=
  let x := full x_shape 1 in
  n <- first_axis x_shape ;;
  let t := full [n] 1 in
  let cond := cond_fn x in
  Ok (init model key x t false cond).

Definition setup (self : JaxLightning) (stage : string) : result JaxLightning :=
  if String.eqb stage "fit" then
    let (k, key_train) := split env (key self) in
    let self := set_key self k in
    p <- model_init self key_train (x_shape self) (cond_fn self) (model self) ;;
    Ok (set_params self (Some p) (Some p))
  else if String.eqb stage "val" then Ok self
  else if String.eqb stage "predict" then Ok self
  else Raise (ValueError ("Unknown stage: " ++ stage)).

Definition configure_optimizers (self : JaxLightning) : result JaxLightning :=
  let opt := adam env (learning_rate (cfg self)) in
  p <- getattr "params" (params self) ;;
  Ok (set_optimizer self (Some opt) (Some (opt_init opt p))).

(** [score]: the model evaluated on the rescaled input, its output rescaled. *)
Definition score (self : JaxLightning) (x t : array) (cond : option array)
    (params : params_t) (train : bool) : result array :=
  let sg := sigma (diffusion self) t in
  let sc := scale (diffusion self) t in
  s2 <- add (square sg) (square (mul_scalar sc (train_data_std self))) ;;
  let input_scale := scalar_div 1 (sqrt s2) in
  let cond := option_map (fun c => div_scalar c (train_data_std self)) cond in
  xin <- mul x input_scale ;;
  tsq <- squeeze12 t ;;
  out <- apply (model self) params xin tsq train cond ;;
  d2 <- add (square sg) (mul_scalar (square sc) (train_data_std self ^ 2)) ;;
  div out (sqrt d2).

(** The time fractions of a batch of [n] examples:
    [jnp.remainder(u0 + jnp.linspace(0, 1, n), 1)]. *)
Definition time_fractions (u0 : R) (n : nat) : array :=
  remainder (scalar_add u0 (linspace 0 1 n)) 1.

(** The random draws of [loss]: the diffusion times and the noised batch. *)
Definition loss_draws (self : JaxLightning) (key : PRNGKey) (x_data : array)
    : result (array * array) :=
  let (key, key_time) := split env key in
  let u0 := uniform env key_time in
  n <- shape0 x_data ;;
  let u := time_fractions u0 n in
  let t := add_scalar (mul_scalar u (tmax (diffusion self) - tmin (diffusion self)))
                      (tmin (diffusion self)) in
  t <- expand12 t ;;
  let (key, key_noise) := split env key in
  let xt := noise_input (diffusion self) x_data t key_noise in
  Ok (t, xt).

Definition loss (self : JaxLightning) (key : PRNGKey) (x_data : array)
    (cond : option array) (params : params_t) : result (R * list (string * R)) :=
  '(t, xt) <- loss_draws self key x_data ;;
  let target_score := noise_score (diffusion self) xt x_data t in
  let weighting := square (sigma (diffusion self) t) in
  s <- score self xt t cond params true ;;
  error <- sub s target_score ;;
  w <- mul (square (covsqrt_inverse (diffusion self) error)) weighting ;;
  let flow_loss := mean w in
  Ok (flow_loss, [("flow_loss", flow_loss)]).

(** [jax.value_and_grad(self.loss, argnums=3, has_aux=True)] *)
Definition loss_and_grad (self : JaxLightning) (key : PRNGKey) (x_data : array)
    (cond : option array) (params : params_t)
    : result ((R * list (string * R)) * params_t) :=
  v <- loss self key x_data cond params ;;
  Ok (v, grad env (loss self key x_data cond) params).

(** [optax.apply_updates] *)
Definition apply_updates (params updates : params_t) : result params_t :=
  tree_map2 add params updates.

(** [lambda p, ema: ema + (p - ema) / self.ema_ts] *)
Definition ema_update (self : JaxLightning) (p ema : array) : result array :=
  d <- sub p ema ;;
  add ema (div_scalar d (ema_ts self)).

Definition step (self : JaxLightning) (key : PRNGKey) (batch : array)
    (cond : option array) (params params_ema : params_t) (opt_state : OptState)
    : result (R * list (string * R) * params_t * params_t * OptState) :=
  '((loss, monitors), grads) <- loss_and_grad self key batch cond params ;;
  opt <- getattr "optimizer" (optimizer self) ;;
  let (updates, opt_state) := update opt grads opt_state in
  params <- apply_updates params updates ;;
  params_ema <- tree_map2 (ema_update self) params params_ema ;;
  Ok (loss, monitors, params, params_ema, opt_state).

Record Outputs : Type := {
  out_loss : R;
  out_loss_ema : R;
  out_monitors : list (string * R);
  out_monitors_ema : list (string * R)
}.

(** [self.optimizers().step()]: counts one more global step. *)
Definition optimizers_step (t : Trainer) : Trainer :=
  {| sanity_checking := sanity_checking t;
     callback_metrics := callback_metrics t;
     global_step := S (global_step t);
     is_global_zero := is_global_zero t;
     loggers := loggers t |}.

Definition training_step (self : JaxLightning) (batch : array) (batch_idx : nat)
    : result (JaxLightning * Outputs) :=
  let cond := cond_fn self batch in
  let (k, key_train) := split env (key self) in
  let self := set_key self k in
  p <- getattr "params" (params self) ;;
  e <- getattr "params_ema" (params_ema self) ;;
  s <- getattr "opt_state" (opt_state self) ;;
  '(loss_v, monitors, p', e', s') <- step self key_train batch cond p e s ;;
  let self := set_optimizer (set_params self (Some p') (Some e')) (optimizer self) (Some s') in
  '(loss_ema, monitors_ema) <- loss self key_train batch cond e' ;;
  let self := set_trainer self (optimizers_step (trainer self)) in
  Ok (self, {| out_loss := loss_v; out_loss_ema := loss_ema;
               out_monitors := monitors; out_monitors_ema := monitors_ema |}).

(** The score callback handed to the samplers: a time without a shape, or with
    the empty shape, is spread over the batch. *)
Definition score_closure (self : JaxLightning) (n : result nat)
    (cond : option array) (params : params_t) : score_fn_t :=
  fun x t =>
    t <- match t with
         | PyFloat v => n <- n ;; Ok (full [n; 1%nat; 1%nat] v)
         | TimeArray a =>
             match shape a with
             | [] => n <- n ;; Ok (full [n; 1%nat; 1%nat] (item a []))
             | _ => Ok a
             end
         end ;;
    score self x t cond params false.

Definition sample (self : JaxLightning) (key : PRNGKey) (tmax : R)
    (cond : option array) (x_shape : list nat) (params : option params_t)
    (keep_path : bool) : result array :=
  params <- match params with
            | None => getattr "params_ema" (params_ema self)
            | Some p => Ok p
            end ;;
  sde_sample env (diffusion self)
    (score_closure self (first_axis x_shape) cond params)
    key x_shape (time_step_count_sampling (cfg self)) keep_path.

Definition compute_nll (self : JaxLightning) (key : PRNGKey) (tmax : R)
    (x_data : array) (params : option params_t) : result array :=
  params <- match params with
            | None => getattr "params_ema" (params_ema self)
            | Some p => Ok p
            end ;;
  let cond := None in
  samplers_compute_nll env (diffusion self)
    (score_closure self (shape0 x_data) cond params) key x_data.

(** [einops.reduce(a, 'b t ->', 'mean')]: the mean of a two-axis array. *)
Definition reduce_mean_bt (a : array) : result R :=
  match shape a with
  | [_; _] => Ok (mean a)
  | _ => Raise (EinopsError "wrong number of axes")
  end.

Definition validation_step (self : JaxLightning) (batch : array) (batch_idx : nat)
    : result (JaxLightning * R) :=
  let (k, key_val) := split env (key self) in
  let self := set_key self k in
  match ckpt_monitor (cfg self) with
  | VAL_RELATIVE_ERROR_EMA =>
      let cond := cond_fn self batch in
      e <- getattr "params_ema" (params_ema self) ;;
      samples <- sample self key_val 1 cond (shape batch) (Some e) false ;;
      v <- reduce_mean_bt (relative_error env batch samples) ;;
      Ok (self, v)
  | Monitor value =>
      if sanity_checking (trainer self) then Ok (self, (-1)%R)
      else v <- getitem (callback_metrics (trainer self)) value ;; Ok (self, v)
  end.

(** [predict_step]: with event conditioning the score callback reads
    [self.params_ema] each time the sampler calls it, after the time has been
    spread over the batch; the constraint is read off
    [self.predict_event_constraint] before [samplers.event_scores] is called
    with [reg=1e-3]. *)
Definition predict_step (self : JaxLightning) (batch : list nat) (batch_idx : nat)
    : result (JaxLightning * array) :=
  let (k, key_pred) := split env (key self) in
  let self := set_key self k in
  let x_shape := batch in
  let cond := None in
  if predict_sample_event_conditioned self then
    let score : score_fn_t := fun x t =>
      t <- match t with
           | PyFloat v => n <- first_axis x_shape ;; Ok (full [n; 1%nat; 1%nat] v)
           | TimeArray a =>
               match shape a with
               | [] => n <- first_axis x_shape ;; Ok (full [n; 1%nat; 1%nat] (item a []))
               | _ => Ok a
               end
           end ;;
      e <- getattr "params_ema" (params_ema self) ;;
      score self x t cond e false in
    c <- match predict_event_constraint self with
         | Some o => Ok (constraint o)
         | None => Raise (AttributeError "constraint")
         end ;;
    let event_scores := event_scores env (diffusion self) score c (1 / 1000) in
    r <- sde_sample env (diffusion self) event_scores
           key_pred x_shape (time_step_count_sampling (cfg self)) false ;;
    Ok (self, r)
  else
    r <- sample self key_pred 1 cond x_shape None false ;;
    Ok (self, r).

End WithOptState.

End Diffusion.

(** ** callbacks.py: the checkpoint callback [ModelCheckpoint] *)

Module Callbacks.

Import Pathlib PyTree Diffusion.
Open Scope string_scope.

(** What a logger receives: [weakref.proxy(obj)], which does not own the
    object, or the object itself. *)
Inductive handle : Type :=
| Proxy (obj : nat)
| Strong (obj : nat).

(** The callback object: its identity and the two attributes it assigns. *)
Record ModelCheckpoint : Type := {
  ident : nat;
  _last_global_step_saved : nat;
  _last_checkpoint_saved : string
}.

(** What a path holds on disk: a directory, or a directory written by a
    checkpoint save. *)
Inductive node : Type :=
| Directory
| Checkpoint (ckpt : params_t).

(** The directory tree: what each path holds, keyed by the paths as pathlib
    builds them.  Plain files and symbolic links are not modelled. *)
Definition tree : Type := PurePath -> option node.

(** [prefix] is an initial segment of [l]. *)
Fixpoint starts_with (prefix l : list string) : bool :=
  match prefix, l with
  | [], _ => true
  | a :: prefix', b :: l' => String.eqb a b && starts_with prefix' l'
  | _ :: _, [] => false
  end.

(** [x.is_relative_to(d)]: [x] is [d] or lies inside it. *)
Definition is_relative_to (x d : PurePath) : bool :=
  String.eqb (root x) (root d) && starts_with (tail d) (tail x).

(** The tree after [d] and everything inside it has been deleted. *)
Definition removed (f : tree) (d : PurePath) : tree :=
  fun x => if is_relative_to x d then None else f x.

(** The tree after a checkpoint has been saved at [d]: whatever [d] held is
    replaced, and the directories leading to [d] exist. *)
Definition written (f : tree) (d : PurePath) (ckpt : params_t) : tree :=
  fun x =>
    if is_relative_to x d then
      if is_relative_to d x then Some (Checkpoint ckpt) else None
    else if is_relative_to d x then
      match f x with
      | Some n => Some n
      | None => Some Directory
      end
    else f x.

(** The world outside the callback.  The storage decides which saves and
    which removals it refuses (no permission, a path it does not accept),
    with which error, and what a refused operation leaves on disk.  The
    parent class of the callback, which is not part of the sources, decides
    what a link does to the disk and whether it raises.  The calls received
    by the loggers and by the parent's [_link_checkpoint] are kept oldest
    first. *)
Record World : Type := {
  files : tree;
  unwritable : PurePath -> bool;
  undeletable : PurePath -> bool;
  refusal : PurePath -> exn;
  left_behind : PurePath -> tree -> tree;
  notified : list (nat * handle);
  link_error : PurePath -> PurePath -> option exn;
  link_effect : PurePath -> PurePath -> tree -> tree;
  links : list (string * string)
}.

Definition state : Type := (ModelCheckpoint * World)%type.

(** A method of the callback: it returns or raises, and leaves a state behind
    in both cases. *)
Definition M (A : Type) : Type := state -> result A * state.

Definition ret {A : Type} (a : A) : M A := fun st => (Ok a, st).

Definition bindM {A B : Type} (m : M A) (k : A -> M B) : M B :=
  fun st =>
    match m st with
    | (Ok a, st') => k a st'
    | (Raise e, st') => (Raise e, st')
    end.

Definition lift {A : Type} (r : result A) : M A := fun st => (r, st).

(** [for x in l: body(x)] *)
Fixpoint for_each {A : Type} (l : list A) (body : A -> M unit) : M unit :=
  match l with
  | [] => ret tt
  | x :: rest => bindM (body x) (fun _ => for_each rest body)
  end.

Definition set_files (w : World) (f : tree) : World :=
  {| files := f; unwritable := unwritable w; undeletable := undeletable w;
     refusal := refusal w; left_behind := left_behind w;
     notified := notified w;
     link_error := link_error w; link_effect := link_effect w;
     links := links w |}.

Definition set_notified (w : World) (l : list (nat * handle)) : World :=
  {| files := files w; unwritable := unwritable w; undeletable := undeletable w;
     refusal := refusal w; left_behind := left_behind w;
     notified := l;
     link_error := link_error w; link_effect := link_effect w;
     links := links w |}.

Definition set_links (w : World) (l : list (string * string)) : World :=
  {| files := files w; unwritable := unwritable w; undeletable := undeletable w;
     refusal := refusal w; left_behind := left_behind w;
     notified := notified w;
     link_error := link_error w; link_effect := link_effect w;
     links := l |}.

(** [orbax_checkpointer.save(directory, ckpt, force=force)]: with [force] an
    existing directory is removed with all it contains before the checkpoint
    is written, without it the save is refused; the directories leading to
    [directory] are created. *)
Definition orbax_save (directory : PurePath) (ckpt : params_t) (force : bool) : M unit :=
  fun st =>
    let w := snd st in
    if unwritable w directory then
      (Raise (refusal w directory),
       (fst st, set_files w (left_behind w directory (files w))))
    else match files w directory with
         | Some _ =>
             if force
             then (Ok tt, (fst st, set_files w (written (files w) directory ckpt)))
             else (Raise (ValueError "Destination already exists"), st)
         | None => (Ok tt, (fst st, set_files w (written (files w) directory ckpt)))
         end.

(** [shutil.rmtree(directory)]: the directory goes with all it contains. *)
Definition rmtree (directory : PurePath) : M unit :=
  fun st =>
    let w := snd st in
    match files w directory with
    | None => (Raise (FileNotFoundError (fspath directory)), st)
    | Some _ =>
        if undeletable w directory then
          (Raise (refusal w directory),
           (fst st, set_files w (left_behind w directory (files w))))
        else (Ok tt, (fst st, set_files w (removed (files w) directory)))
    end.

(** [logger.after_save_checkpoint(h)] *)
Definition after_save_checkpoint (logger : nat) (h : handle) : M unit :=
  fun st =>
    let w := snd st in
    (Ok tt, (fst st, set_notified w (notified w ++ [(logger, h)]))).

(** [pl.callbacks.ModelCheckpoint._link_checkpoint(trainer, src, dst)]: the
    call is recorded, its effect on the disk and its outcome are the
    library's. *)
Definition parent_link_checkpoint (src dst : PurePath) : M unit :=
  fun st =>
    let w := snd st in
    let w' := set_links (set_files w (link_effect w src dst (files w)))
                (links w ++ [(fspath src, fspath dst)]) in
    match link_error w src dst with
    | None => (Ok tt, (fst st, w'))
    | Some e => (Raise e, (fst st, w'))
    end.

Definition set_last_saved (step : nat) (filepath : string) : M unit :=
  fun st =>
    (Ok tt, ({| ident := ident (fst st);
                _last_global_step_saved := step;
                _last_checkpoint_saved := filepath |}, snd st)).

Definition get_self : M ModelCheckpoint := fun st => (Ok (fst st), st).

Definition get_checkpoint_directories (filepath : string) : PurePath * PurePath :=
  let filepath := Path filepath in
  (truediv (parent filepath) (stem filepath),
   truediv (parent filepath) (stem filepath ++ "_ema")).

Section WithOptState.

Variable OptState : Type.

(** The trainer argument is given by the module it drives: the callback reads
    [trainer.lightning_module] and the trainer's own attributes. *)
Definition _save_checkpoint (pl_module : JaxLightning OptState) (filepath : string)
    : M unit :=
  bindM (lift (getattr "params" (params pl_module))) (fun params =>
  bindM (lift (getattr "params_ema" (params_ema pl_module))) (fun params_ema =>
  let (d, d_ema) := get_checkpoint_directories filepath in
  bindM (for_each (combine [params; params_ema] [d; d_ema])
           (fun cd => orbax_save (snd cd) (fst cd) true)) (fun _ =>
  bindM (set_last_saved (global_step (trainer pl_module)) filepath) (fun _ =>
  if is_global_zero (trainer pl_module) then
    bindM get_self (fun self =>
    for_each (loggers (trainer pl_module))
      (fun logger => after_save_checkpoint logger (Proxy (ident self))))
  else ret tt)))).

Definition _remove_checkpoint (pl_module : JaxLightning OptState) (filepath : string)
    : M unit :=
  let (d, d_ema) := get_checkpoint_directories filepath in
  for_each [d; d_ema] rmtree.

Definition _link_checkpoint (pl_module : JaxLightning OptState)
    (filepath linkpath : string) : M unit :=
  let lp := Path linkpath in
  let linkpath := truediv (parent lp) (stem lp) in
  let linkpath_ema := truediv (parent lp) (stem lp ++ "_ema") in
  let (d, d_ema) := get_checkpoint_directories filepath in
  for_each (combine [d; d_ema] [linkpath; linkpath_ema])
    (fun dl => parent_link_checkpoint (fst dl) (snd dl)).

End WithOptState.

End Callbacks.

(** ** Vocabulary of the statements *)

Module PathSpec.
Import Pathlib.
(** [c in s] *)
Fixpoint contains (c : ascii) (s : string) : bool :=
  match s with
  | EmptyString => false
  | String a r => Ascii.eqb a c || contains c r
  end.
End PathSpec.

(** ** A small concrete instance, used to run the statements *)

Module Demo.

Import Jnp PyTree Diffusion Callbacks.
Open Scope R_scope.
Open Scope string_scope.

Definition process : DiffusionProcess :=
  {| tmin := 0; tmax := 1;
     sigma := fun t => t;
     scale := fun t => full (shape t) 1;
     noise_input := fun x t k => x;
     noise_score := fun xt x t => xt;
     covsqrt_inverse := fun e => e |}.

Definition network : ScoreModel :=
  {| init := fun k x t train cond => Dict [("w", Leaf x)];
     apply := fun p x t train cond => Ok x |}.

Definition sgd : Optimizer unit :=
  {| opt_init := fun _ => tt; update := fun g s => (g, s) |}.

Definition libs : Env unit :=
  {| split := fun k => ((fst k, N.succ (snd k)), (N.succ (fst k), snd k));
     uniform := fun _ => 3 / 4;
     grad := fun f p => p;
     adam := fun _ => sgd;
     sde_sample := fun d sc k shp n keep => sc (full shp 0) (PyFloat 1);
     samplers_compute_nll := fun d sc k x => sc x (PyFloat 1);
     event_scores := fun d sc c reg => sc;
     relative_error := fun a b =>
       mkArray (firstn 2 (shape a))
         (fun idx => Rabs (item a (idx ++ [0%nat]) - item b (idx ++ [0%nat]))) |}.

Definition config : Config :=
  {| epochs := 10; ema_folding_count := 5; learning_rate := 1 / 1000;
     time_step_count_sampling := 4; ckpt_monitor := Monitor "val_loss" |}.

Definition batch : array := full [2; 3; 1]%nat 1.

Definition loaders : Dataloaders :=
  {| train := [batch]; val := [batch]; predict := [[2; 3; 1]%nat] |}.

Definition lightning : Trainer :=
  {| sanity_checking := true; callback_metrics := [("val_loss", 1 / 2)];
     global_step := 3; is_global_zero := true; loggers := [7; 8]%nat |}.

Definition weights : params_t :=
  Dict [("dense", Dict [("bias", Leaf (full [3]%nat 0));
                        ("kernel", Leaf (full [3; 3]%nat 1))])].

Definition shadow : params_t :=
  Dict [("dense", Dict [("bias", Leaf (full [3]%nat 1));
                        ("kernel", Leaf (full [3; 3]%nat 0))])].

Definition engine : JaxLightning unit :=
  {| cfg := config; key := (0%N, 0%N); dataloaders := loaders;
     train_data_std := 1; x_shape := [2; 3; 1]%nat;
     cond_fn := fun _ => None; model := network;
     predict_sample_event_conditioned := false;
     predict_event_constraint := None;
     diffusion := process; ema_ts := 2;
     params := Some weights; params_ema := Some shadow;
     optimizer := Some sgd; opt_state := Some tt;
     trainer := lightning |}.

Definition callback : ModelCheckpoint :=
  {| ident := 1; _last_global_step_saved := 0; _last_checkpoint_saved := "" |}.

(** A storage that accepts every operation, and a parent class whose links
    change nothing on disk and never raise. *)
Definition storage (f : tree) : World :=
  {| files := f;
     unwritable := fun _ => false; undeletable := fun _ => false;
     refusal := fun d => OSError (Pathlib.fspath d);
     left_behind := fun _ t => t;
     notified := [];
     link_error := fun _ _ => None;
     link_effect := fun _ _ t => t;
     links := [] |}.

(** The directory "/a/b/ckpt" holds an older checkpoint. *)
Definition disk : World :=
  storage (fun d => if String.eqb (Pathlib.fspath d) "/a/b/ckpt"
                    then Some (Checkpoint shadow)
                    else if is_relative_to (Pathlib.Path "/a/b") d then Some Directory
                    else None).

End Demo.

Module TreeSpec.
Import Jnp PyTree.

(** The keys and the leaf shapes of a parameter tree. *)
Definition skeleton (t : pytree array) : pytree (list nat) := tree_map shape t.

(** Induction on trees, with the hypothesis for every value of a dict. *)
Section Induction.
Variable A : Type.
Variable P : pytree A -> Prop.
Hypothesis HLeaf : forall a, P (Leaf a).
Hypothesis HDict : forall items, Forall (fun kv => P (snd kv)) items -> P (Dict items).

Fixpoint pytree_induction (t : pytree A) : P t :=
  match t with
  | Leaf a => HLeaf a
  | Dict items =>
      HDict ((fix go (l : list (string * pytree A)) : Forall (fun kv => P (snd kv)) l :=
                match l with
                | [] => Forall_nil _
                | kv :: r => Forall_cons kv (pytree_induction (snd kv)) (go r)
                end) items)
  end.
End Induction.

End TreeSpec.

Module EngineSpec.
Import Jnp PyTree Diffusion.

(** The engines a training run goes through: the engine after [setup('fit')]
    and [configure_optimizers], and every engine after a further
    [training_step]. *)
Inductive trained (OptState : Type) (env : Env OptState)
    (self0 : JaxLightning OptState) : JaxLightning OptState -> Prop :=
| trained_setup self1 self2 :
    setup env self0 "fit" = Ok self1 ->
    configure_optimizers env self1 = Ok self2 ->
    trained env self0 self2
| trained_step self batch batch_idx self' out :
    trained env self0 self ->
    training_step env self batch batch_idx = Ok (self', out) ->
    trained env self0 self'.

End EngineSpec.

Module SamplingSpec.
Open Scope R_scope.

(** The fractional part of a real number. *)
Definition frac (x : R) : R := x - IZR (Zfloor x).

(** The fixed-stride rule as the specification words it:
    [u_i = frac(u0 + i/N)]. *)
Definition stride_rule (u0 : R) (n i : nat) : R := frac (u0 + INR i / INR n).

End SamplingSpec.

(** More worlds for the checkpoint callback. *)

Module DemoDisks.

Import Pathlib PyTree Diffusion Callbacks.
Open Scope string_scope.

(** Both directories of "/a/b/ckpt.tmp" are on disk, in their parent. *)
Definition pair : World :=
  Demo.storage
    (fun d => if String.eqb (fspath d) "/a/b/ckpt" then Some (Checkpoint Demo.weights)
              else if String.eqb (fspath d) "/a/b/ckpt_ema"
                   then Some (Checkpoint Demo.shadow)
              else if is_relative_to (Path "/a/b") d then Some Directory
              else None).

(** Only the root directory is on disk. *)
Definition empty : World :=
  Demo.storage (fun d => if String.eqb (fspath d) "/" then Some Directory else None).

(** The storage refuses to write the EMA directory of "/a/b/ckpt.tmp", and
    leaves a temporary directory behind when it does. *)
Definition ema_refused : World :=
  {| files := fun d => if String.eqb (fspath d) "/a/b/ckpt_ema"
                       then Some (Checkpoint Demo.weights)
                       else if is_relative_to (Path "/a/b") d then Some Directory
                       else None;
     unwritable := fun d => String.eqb (fspath d) "/a/b/ckpt_ema";
     undeletable := fun _ => false;
     refusal := fun d => ValueError (fspath d);
     left_behind := fun d t x =>
       if String.eqb (fspath x) (fspath d ++ ".tmp") then Some Directory else t x;
     notified := [];
     link_error := fun _ _ => None;
     link_effect := fun _ _ t => t;
     links := [] |}.

(** The directory "/a/b" holds a checkpoint and, inside it, the directory
    "/a/b/._ema"; the parent of the link path "/c/last.ckpt" is missing, so
    the parent class cannot make a link there. *)
Definition nested : World :=
  {| files := fun d => if String.eqb (fspath d) "/a/b" then Some (Checkpoint Demo.weights)
                       else if String.eqb (fspath d) "/a/b/._ema"
                            then Some (Checkpoint Demo.shadow)
                       else if is_relative_to (Path "/a/b") d then Some Directory
                       else None;
     unwritable := fun _ => false; undeletable := fun _ => false;
     refusal := fun d => OSError (fspath d);
     left_behind := fun _ t => t;
     notified := [];
     link_error := fun src dst =>
       if is_relative_to dst (Path "/c") then Some (FileNotFoundError (fspath dst))
       else None;
     link_effect := fun _ _ t => t;
     links := [] |}.

End DemoDisks.

(** An engine that has not been set up. *)

Module DemoEngines.

Import PyTree Diffusion.

Definition fresh : JaxLightning unit :=
  set_optimizer (set_params Demo.engine None None) None None.

End DemoEngines.

(** An engine whose checkpoint monitor is the EMA relative error. *)

Module DemoMonitors.

Import PyTree Diffusion.
Open Scope R_scope.

Definition config : Config :=
  {| epochs := 10; ema_folding_count := 5; learning_rate := 1 / 1000;
     time_step_count_sampling := 4; ckpt_monitor := VAL_RELATIVE_ERROR_EMA |}.

Definition engine : JaxLightning unit :=
  {| cfg := config; key := (0%N, 0%N); dataloaders := Demo.loaders;
     train_data_std := 1; x_shape := [2; 3; 1]%nat;
     cond_fn := fun _ => None; model := Demo.network;
     predict_sample_event_conditioned := true;
     predict_event_constraint := Some {| constraint := fun x => x |};
     diffusion := Demo.process; ema_ts := 2;
     params := Some Demo.weights; params_ema := Some Demo.shadow;
     optimizer := Some Demo.sgd; opt_state := Some tt;
     trainer := Demo.lightning |}.

End DemoMonitors.

(** ** callbacks.py: the logging callback [LogStats] *)

Module LogStats.

Import Jnp Diffusion.
Open Scope string_scope.

(** A key of a diagnostics dict: a string, or another object, of which the
    callback logs the name of the class. *)
Inductive monitor_key : Type :=
| StrKey (s : string)
| ObjKey (class_name : string).

(** The [outputs] dict of a training batch. *)
Record outputs : Type := {
  outputs_loss : R;
  outputs_loss_ema : R;
  outputs_monitors : list (monitor_key * R);
  outputs_monitors_ema : list (monitor_key * R)
}.

(** The dict returned by [training_step], whose diagnostics have string keys. *)
Definition of_training_step (o : Outputs) : outputs :=
  {| outputs_loss := out_loss o;
     outputs_loss_ema := out_loss_ema o;
     outputs_monitors := List.map (fun kv => (StrKey (fst kv), snd kv)) (out_monitors o);
     outputs_monitors_ema :=
       List.map (fun kv => (StrKey (fst kv), snd kv)) (out_monitors_ema o) |}.

(** One call of [self.log]. *)
Record log_call : Type := {
  log_name : string;
  log_value : R;
  batch_size : nat;
  on_epoch : bool;
  prog_bar : bool
}.

(** A hook of the callback: it returns or raises, and leaves the calls of
    [self.log] made so far, oldest first. *)
Definition L (A : Type) : Type := list log_call -> result A * list log_call.

Definition bindL {A B : Type} (m : L A) (k : A -> L B) : L B :=
  fun calls =>
    match m calls with
    | (Ok a, calls') => k a calls'
    | (Raise e, calls') => (Raise e, calls')
    end.

Definition retL {A : Type} (a : A) : L A := fun calls => (Ok a, calls).

Fixpoint for_each {A : Type} (l : list A) (body : A -> L unit) : L unit :=
  match l with
  | [] => retL tt
  | x :: rest => bindL (body x) (fun _ => for_each rest body)
  end.

(** [len(batch)] *)
Definition len (batch : array) : result nat :=
  match shape batch with
  | d :: _ => Ok d
  | [] => Raise TypeError
  end.

(** [self.log(name, value, batch_size=len(batch), on_epoch=True, prog_bar=True)] *)
Definition log (name : string) (value : R) (batch : array) : L unit :=
  fun calls =>
    match len batch with
    | Ok n => (Ok tt, (calls ++ [{| log_name := name; log_value := value;
                                    batch_size := n; on_epoch := true;
                                    prog_bar := true |}])%list)
    | Raise e => (Raise e, calls)
    end.

Definition key_name (k : monitor_key) : string :=
  match k with
  | StrKey s => s
  | ObjKey class_name => class_name
  end.

Definition on_train_batch_end (outputs : outputs) (batch : array) : L unit :=
  bindL (log "train_loss" (outputs_loss outputs) batch) (fun _ =>
  bindL (log "train_loss_ema" (outputs_loss_ema outputs) batch) (fun _ =>
  bindL (for_each (outputs_monitors outputs)
           (fun kv => match fst kv with
                      | StrKey k => log k (snd kv) batch
                      | ObjKey class_name => log class_name (snd kv) batch
                      end)) (fun _ =>
  for_each (outputs_monitors_ema outputs)
    (fun kv => match fst kv with
               | StrKey k => log (k ++ "_ema") (snd kv) batch
               | ObjKey class_name => log (class_name ++ "_ema") (snd kv) batch
               end)))).

Definition on_validation_batch_end (loss_val : R) (batch : array) : L unit :=
  log "loss_val" loss_val batch.

End LogStats.

Module LogSpec.
Import LogStats.

(** The call [self.log(name, v, batch_size=n, on_epoch=True, prog_bar=True)]. *)
Definition logged (n : nat) (name : string) (v : R) : log_call :=
  {| log_name := name; log_value := v; batch_size := n;
     on_epoch := true; prog_bar := true |}.

End LogSpec.

Module LossSpec.
Import Jnp PyTree Diffusion.

Section WithOptState.

Variable OptState : Type.
Variable env : Env OptState.

(** The array whose mean [loss] returns: the squared whitened error times the
    weighting. *)
Definition loss_terms (self : JaxLightning OptState) (key : PRNGKey) (x_data : array)
    (cond : option array) (params : params_t) : result array :=
  bind (loss_draws env self key x_data) (fun tx =>
  let t := fst tx in
  let xt := snd tx in
  let target_score := noise_score (diffusion self) xt x_data t in
  let weighting := square (sigma (diffusion self) t) in
  bind (score self xt t cond params true) (fun s =>
  bind (sub s target_score) (fun error =>
  mul (square (covsqrt_inverse (diffusion self) error)) weighting))).

End WithOptState.

End LossSpec.

(** * Properties *)

(** ** Facts about paths *)

Section PathlibFacts.
Import Pathlib PathSpec.
Open Scope string_scope.

Lemma split_nonempty c s : split c s <> [].
Proof.
  destruct s as [|a r]; simpl; [discriminate|].
  destruct (Ascii.eqb a c); [discriminate|].
  destruct (split c r); discriminate.
Qed.

Lemma split_no_sep c s : Forall (fun x => contains c x = false) (split c s).
Proof.
  induction s as [|a r IH]; simpl.
  - constructor; [reflexivity|constructor].
  - destruct (Ascii.eqb a c) eqn:E.
    + constructor; [reflexivity|exact IH].
    + destruct (split c r) as [|h t].
      * constructor; [simpl; rewrite E; reflexivity|constructor].
      * inversion IH; subst. constructor; [simpl; rewrite E; assumption|assumption].
Qed.

Lemma split_without_sep c s : contains c s = false -> split c s = [s].
Proof.
  induction s as [|a r IH]; simpl; intro H; [reflexivity|].
  apply orb_false_iff in H. destruct H as [E H].
  rewrite E, (IH H). reflexivity.
Qed.

Lemma contains_append c s t : contains c (s ++ t) = contains c s || contains c t.
Proof.
  induction s as [|a r IH]; simpl; [reflexivity|].
  rewrite IH, orb_assoc. reflexivity.
Qed.

Lemma contains_prefix c s : forall i, contains c s = false -> contains c (substring 0 i s) = false.
Proof.
  induction s as [|a r IH]; intros [|i] H; simpl in *; try reflexivity.
  apply orb_false_iff in H. destruct H as [E H].
  rewrite E, (IH i H). reflexivity.
Qed.

Lemma substring_split s : forall i, i <= String.length s ->
  substring 0 i s ++ substring i (String.length s - i) s = s.
Proof.
  induction s as [|a r IH]; intros [|i] H; simpl in *; try reflexivity; try lia.
  - f_equal. clear. induction r; simpl; [reflexivity|f_equal; assumption].
  - f_equal. apply IH. lia.
Qed.

Lemma rfind_bound c s i : rfind c s = Some i -> i < String.length s.
Proof.
  revert i. induction s as [|a r IH]; simpl; intros i H; [discriminate|].
  destruct (rfind c r) as [j|].
  - inversion H; subst. specialize (IH j eq_refl). lia.
  - destruct (Ascii.eqb a c); inversion H; lia.
Qed.

Lemma name_stem_suffix p : name p = stem p ++ suffix p.
Proof.
  unfold stem, suffix. destruct (rfind dot (name p)) as [i|] eqn:E.
  - destruct ((0 <? i)%nat && (i <? String.length (name p) - 1)%nat) eqn:B.
    + symmetry. apply substring_split. apply rfind_bound in E. lia.
    + clear. induction (name p); simpl; [reflexivity|f_equal; assumption].
  - clear. induction (name p); simpl; [reflexivity|f_equal; assumption].
Qed.

Lemma last_in_or_default {A} (l : list A) d : l = [] \/ In (last l d) l.
Proof.
  induction l as [|a l IH]; [left; reflexivity|right].
  destruct l as [|b l]; [left; reflexivity|].
  destruct IH as [IH|IH]; [discriminate|]. right. exact IH.
Qed.

Lemma Path_parts p : Forall (fun x => contains sep x = false /\ is_part x = true) (tail (Path p)).
Proof.
  unfold Path. destruct (splitroot p) as [rt rel]. simpl.
  apply Forall_forall. intros x Hx. apply filter_In in Hx. destruct Hx as [Hx Hp].
  split; [|exact Hp].
  pose proof (split_no_sep sep rel) as F. rewrite Forall_forall in F. apply F, Hx.
Qed.

Lemma name_no_sep p : contains sep (name (Path p)) = false.
Proof.
  unfold name. destruct (last_in_or_default (tail (Path p)) "") as [E|H].
  - rewrite E. reflexivity.
  - pose proof (Path_parts p) as F. rewrite Forall_forall in F. apply F in H. apply H.
Qed.

Lemma stem_no_sep p : contains sep (stem (Path p)) = false.
Proof.
  pose proof (name_no_sep p) as H. unfold stem.
  destruct (rfind dot (name (Path p))) as [i|]; [|exact H].
  destruct ((0 <? i)%nat && (i <? String.length (name (Path p)) - 1)%nat); [|exact H].
  apply contains_prefix, H.
Qed.

Lemma Path_single s : contains sep s = false ->
  Path s = mkPath "" (if is_part s then [s] else []).
Proof.
  intro H. unfold Path.
  assert (R : splitroot s = ("", s)).
  { destruct s as [|a r]; [reflexivity|]. simpl in H. apply orb_false_iff in H.
    destruct H as [E _]. unfold splitroot. rewrite E. reflexivity. }
  rewrite R, (split_without_sep _ _ H). simpl.
  destruct (is_part s); reflexivity.
Qed.

Lemma truediv_single p s : contains sep s = false ->
  truediv p s = mkPath (root p) (tail p ++ (if is_part s then [s] else [])).
Proof.
  intro H. unfold truediv. rewrite (Path_single _ H). reflexivity.
Qed.

Lemma is_part_ema s : is_part (s ++ "_ema") = true.
Proof.
  unfold is_part. destruct s as [|a [|b r]]; simpl.
  - reflexivity.
  - destruct (Ascii.eqb_spec a "."%char); subst; reflexivity.
  - destruct (a =? ".")%char; reflexivity.
Qed.
End PathlibFacts.

Section DirectoryFacts.
Import Pathlib PathSpec.
Open Scope string_scope.

Lemma length_append s t : String.length (s ++ t) = String.length s + String.length t.
Proof. induction s as [|a r IH]; simpl; [reflexivity|rewrite IH; reflexivity]. Qed.

Lemma join_snoc t x :
  join (t ++ [x])%list = match t with [] => x | _ => join t ++ String sep x end.
Proof.
  induction t as [|a t IH]; [reflexivity|].
  destruct t as [|b t]; [reflexivity|].
  change (join ((a :: b :: t) ++ [x])%list) with (a ++ String sep (join ((b :: t) ++ [x])%list)).
  rewrite IH. change (join (a :: b :: t)) with (a ++ String sep (join (b :: t))).
  clear. induction a as [|c a IHa]; simpl; [reflexivity|f_equal; exact IHa].
Qed.

Lemma fspath_snoc_length r t x : x <> "" ->
  String.length (fspath (mkPath r (t ++ [x])%list)) =
  String.length r + match t with [] => 0 | _ => String.length (join t) + 1 end
  + String.length x.
Proof.
  intro Hx. unfold fspath; simpl root; simpl tail.
  destruct r as [|c r].
  - destruct (t ++ [x])%list eqn:E'; [destruct t; discriminate|]. rewrite <- E'.
    simpl. rewrite join_snoc. destruct t; [lia|].
    rewrite length_append. simpl. lia.
  - rewrite length_append, join_snoc. destruct t; [lia|].
    rewrite length_append. simpl. lia.
Qed.

Lemma fspath_length_le r t :
  String.length (fspath (mkPath r t)) <= 1 + String.length r + String.length (join t).
Proof.
  unfold fspath; simpl root; simpl tail.
  destruct r; [destruct t|]; simpl; try rewrite length_append; simpl; lia.
Qed.

(** The raw and the EMA directory of a path are never the same directory. *)
Lemma directories_distinct_aux r t s :
  fspath (mkPath r (t ++ (if is_part s then [s] else []))%list)
  <> fspath (mkPath r (t ++ [(s ++ "_ema")%string])%list).
Proof.
  intro H. apply (f_equal String.length) in H.
  assert (Hx : s ++ "_ema" <> "") by (destruct s; discriminate).
  rewrite (fspath_snoc_length r t Hx), length_append in H. simpl in H.
  destruct (is_part s) eqn:P.
  - assert (Hs : s <> "") by (intro; subst; discriminate).
    rewrite (fspath_snoc_length r t Hs) in H. lia.
  - rewrite app_nil_r in H. pose proof (fspath_length_le r t) as L.
    destruct t as [|a t]; [|cbv iota in H; lia].
    unfold fspath in H; simpl in H.
    destruct r; simpl in H; rewrite ?length_append in H; simpl in H; lia.
Qed.

Lemma checkpoint_directories_eq p :
  Callbacks.get_checkpoint_directories p =
  (mkPath (root (Path p))
     (removelast (tail (Path p))
      ++ (if is_part (stem (Path p)) then [stem (Path p)] else []))%list,
   mkPath (root (Path p))
     (removelast (tail (Path p)) ++ [(stem (Path p) ++ "_ema")%string])%list).
Proof.
  unfold Callbacks.get_checkpoint_directories.
  rewrite (truediv_single _ _ (stem_no_sep p)).
  rewrite truediv_single.
  - rewrite is_part_ema. reflexivity.
  - rewrite contains_append, stem_no_sep. reflexivity.
Qed.

Lemma directories_distinct p :
  fspath (fst (Callbacks.get_checkpoint_directories p))
  <> fspath (snd (Callbacks.get_checkpoint_directories p)).
Proof. rewrite checkpoint_directories_eq. apply directories_distinct_aux. Qed.

End DirectoryFacts.

(** ** The checkpoint callback *)

Section CallbackFacts.
Import Pathlib PathSpec PyTree Diffusion Callbacks.
Open Scope string_scope.

Variable OptState : Type.

Lemma starts_with_refl l : starts_with l l = true.
Proof. induction l as [|a l IH]; simpl; [reflexivity|]. rewrite String.eqb_refl. exact IH. Qed.

Lemma starts_with_app t a b : starts_with (t ++ a) (t ++ b) = starts_with a b.
Proof. induction t as [|c t IH]; simpl; [reflexivity|]. rewrite String.eqb_refl. exact IH. Qed.

Lemma starts_with_prefix t b : starts_with t (t ++ b) = true.
Proof. induction t as [|c t IH]; simpl; [reflexivity|]. rewrite String.eqb_refl. exact IH. Qed.

Lemma starts_with_longer t x : starts_with (t ++ [x]) t = false.
Proof. induction t as [|c t IH]; simpl; [reflexivity|]. rewrite String.eqb_refl. exact IH. Qed.

Lemma is_relative_to_refl d : is_relative_to d d = true.
Proof. unfold is_relative_to. rewrite String.eqb_refl, starts_with_refl. reflexivity. Qed.

Lemma ema_name_differs s : (s ++ "_ema" =? s) = false /\ (s =? s ++ "_ema") = false.
Proof.
  split; apply String.eqb_neq; intro H; apply (f_equal String.length) in H;
    rewrite length_append in H; simpl in H; lia.
Qed.

(** The raw directory is neither the EMA directory nor inside it. *)
Lemma raw_outside_ema filepath :
  is_relative_to (fst (get_checkpoint_directories filepath))
                 (snd (get_checkpoint_directories filepath)) = false.
Proof.
  rewrite checkpoint_directories_eq. unfold is_relative_to. cbn [fst snd root tail].
  rewrite String.eqb_refl. cbn [andb].
  destruct (is_part (stem (Path filepath))).
  - rewrite starts_with_app. cbn [starts_with].
    rewrite (proj1 (ema_name_differs _)). reflexivity.
  - rewrite app_nil_r. apply starts_with_longer.
Qed.

(** The EMA directory lies inside the raw directory exactly when the stem of
    the path is no name, and the raw directory is the parent itself. *)
Lemma ema_inside_raw filepath :
  is_relative_to (snd (get_checkpoint_directories filepath))
                 (fst (get_checkpoint_directories filepath))
  = negb (is_part (stem (Path filepath))).
Proof.
  rewrite checkpoint_directories_eq. unfold is_relative_to. cbn [fst snd root tail].
  rewrite String.eqb_refl. cbn [andb].
  destruct (is_part (stem (Path filepath))).
  - rewrite starts_with_app. cbn [starts_with].
    rewrite (proj2 (ema_name_differs _)). reflexivity.
  - rewrite app_nil_r. apply starts_with_prefix.
Qed.

Lemma written_at f d c : written f d c d = Some (Checkpoint c).
Proof. unfold written. rewrite is_relative_to_refl. reflexivity. Qed.

Lemma written_keeps f d c x n :
  is_relative_to x d = false -> f x = Some n -> written f d c x = Some n.
Proof.
  intros H F. unfold written. rewrite H, F.
  destruct (is_relative_to d x); reflexivity.
Qed.

Lemma removed_inside f d x : is_relative_to x d = true -> removed f d x = None.
Proof. intro H. unfold removed. rewrite H. reflexivity. Qed.

Lemma removed_outside f d x : is_relative_to x d = false -> removed f d x = f x.
Proof. intro H. unfold removed. rewrite H. reflexivity. Qed.

Lemma notify_all h ls : forall cb w,
  for_each ls (fun l => after_save_checkpoint l h) (cb, w) =
  (Ok tt, (cb, set_notified w (notified w ++ List.map (fun l => (l, h)) ls))).
Proof.
  induction ls as [|l ls IH]; intros cb w; simpl.
  - unfold ret, set_notified. rewrite app_nil_r. destruct w; reflexivity.
  - unfold bindM, after_save_checkpoint. cbn [fst snd]. rewrite IH.
    unfold set_notified. cbn. rewrite <- app_assoc. reflexivity.
Qed.

Lemma orbax_save_force d ckpt cb w :
  orbax_save d ckpt true (cb, w) =
  if unwritable w d
  then (Raise (refusal w d), (cb, set_files w (left_behind w d (files w))))
  else (Ok tt, (cb, set_files w (written (files w) d ckpt))).
Proof.
  unfold orbax_save. cbn [fst snd].
  destruct (unwritable w d); [reflexivity|].
  destruct (files w d); reflexivity.
Qed.

(** The run of [_save_checkpoint] in closed form. *)
Lemma save_checkpoint_run (pl_module : JaxLightning OptState) filepath cb w p e :
  params pl_module = Some p ->
  params_ema pl_module = Some e ->
  _save_checkpoint pl_module filepath (cb, w) =
  let d := fst (get_checkpoint_directories filepath) in
  let d_ema := snd (get_checkpoint_directories filepath) in
  if unwritable w d
  then (Raise (refusal w d), (cb, set_files w (left_behind w d (files w))))
  else
    let w1 := set_files w (written (files w) d p) in
    if unwritable w d_ema
    then (Raise (refusal w d_ema),
          (cb, set_files w1 (left_behind w d_ema (files w1))))
    else (Ok tt,
          ({| ident := ident cb;
              _last_global_step_saved := global_step (trainer pl_module);
              _last_checkpoint_saved := filepath |},
           set_notified (set_files w1 (written (files w1) d_ema e))
             (notified w ++
              if is_global_zero (trainer pl_module)
              then List.map (fun l => (l, Proxy (ident cb)))
                     (loggers (trainer pl_module))
              else [])%list)).
Proof.
  intros Hp He. unfold _save_checkpoint. rewrite Hp, He.
  destruct (get_checkpoint_directories filepath) as [d d_ema].
  cbv zeta. cbn [fst snd].
  unfold bindM at 1 2. unfold lift, getattr.
  cbn [combine for_each fst snd].
  unfold bindM at 1 2. rewrite orbax_save_force.
  destruct (unwritable w d) eqn:U1; [reflexivity|].
  unfold bindM at 1. rewrite orbax_save_force.
  change (unwritable (set_files w (written (files w) d p)) d_ema)
    with (unwritable w d_ema).
  destruct (unwritable w d_ema) eqn:U2; [reflexivity|].
  unfold ret, bindM at 1. unfold set_last_saved. cbn [fst snd].
  destruct (is_global_zero (trainer pl_module)).
  - unfold bindM, get_self. rewrite notify_all. reflexivity.
  - unfold ret, set_notified, set_files. cbn. rewrite app_nil_r. reflexivity.
Qed.

(** C8: [_save_checkpoint] writes the raw parameters to the raw directory and
    the EMA parameters to the EMA directory, one after the other, whatever
    the directories held before; it records the step and the path after both
    writes (when a write fails nothing is recorded and nobody is notified);
    and on the primary process each logger of the trainer receives one call
    carrying a proxy of the callback, on any other process none. *)
Theorem save_checkpoint_writes_records_notifies
    (pl_module : JaxLightning OptState) (filepath : string) (st : state)
    (p e : params_t) :
  params pl_module = Some p ->
  params_ema pl_module = Some e ->
  let raw := fst (get_checkpoint_directories filepath) in
  let ema := snd (get_checkpoint_directories filepath) in
  let out := _save_checkpoint pl_module filepath st in
  let w := snd st in
  let w' := snd (snd out) in
  let cb' := fst (snd out) in
  if unwritable w raw || unwritable w ema
  then (exists err, fst out = Raise err) /\ cb' = fst st /\ notified w' = notified w
  else fst out = Ok tt
       /\ files w' raw = Some (Checkpoint p) /\ files w' ema = Some (Checkpoint e)
       /\ _last_global_step_saved cb' = global_step (trainer pl_module)
       /\ _last_checkpoint_saved cb' = filepath
       /\ ident cb' = ident (fst st)
       /\ notified w' =
          (notified w ++
           if is_global_zero (trainer pl_module)
           then List.map (fun l => (l, Proxy (ident (fst st)))) (loggers (trainer pl_module))
           else [])%list.
Proof.
  intros Hp He. cbv zeta.
  pose proof (raw_outside_ema filepath) as Hd.
  destruct st as [cb w].
  rewrite (save_checkpoint_run pl_module filepath cb w Hp He). cbv zeta.
  destruct (get_checkpoint_directories filepath) as [d d_ema].
  cbn [fst snd] in *.
  destruct (unwritable w d) eqn:U1; cbn [orb].
  { cbn [fst snd]. split; [eauto|]. split; reflexivity. }
  destruct (unwritable w d_ema) eqn:U2.
  { cbn [fst snd]. split; [eauto|]. split; reflexivity. }
  cbn [fst snd set_notified set_files files notified
       _last_global_step_saved _last_checkpoint_saved ident].
  split; [reflexivity|].
  split; [apply written_keeps; [exact Hd|apply written_at]|].
  split; [apply written_at|].
  repeat split; reflexivity.
Qed.

End CallbackFacts.

Section CallbackRuns.
Import Pathlib PathSpec PyTree Diffusion Callbacks.
Open Scope string_scope.

(** The run of C8 on the demo instance: both directories are written, the
    older contents of the raw directory are replaced, and both loggers are
    called once. *)
Lemma save_checkpoint_demo :
  files Demo.disk (Path "/a/b/ckpt") = Some (Checkpoint Demo.shadow)
  /\ fst (_save_checkpoint Demo.engine "/a/b/ckpt.tmp" (Demo.callback, Demo.disk)) = Ok tt
  /\ files (snd (snd (_save_checkpoint Demo.engine "/a/b/ckpt.tmp"
                        (Demo.callback, Demo.disk)))) (Path "/a/b/ckpt")
     = Some (Checkpoint Demo.weights)
  /\ files (snd (snd (_save_checkpoint Demo.engine "/a/b/ckpt.tmp"
                        (Demo.callback, Demo.disk)))) (Path "/a/b/ckpt_ema")
     = Some (Checkpoint Demo.shadow)
  /\ _last_global_step_saved
       (fst (snd (_save_checkpoint Demo.engine "/a/b/ckpt.tmp"
                    (Demo.callback, Demo.disk)))) = 3
  /\ notified (snd (snd (_save_checkpoint Demo.engine "/a/b/ckpt.tmp"
                           (Demo.callback, Demo.disk))))
     = [(7, Proxy 1); (8, Proxy 1)].
Proof.
  split; [reflexivity|].
  pose proof (@save_checkpoint_writes_records_notifies unit Demo.engine "/a/b/ckpt.tmp"
                (Demo.callback, Demo.disk) Demo.weights Demo.shadow
                eq_refl eq_refl) as H.
  cbv zeta in H.
  change (unwritable (snd (Demo.callback, Demo.disk))
            (fst (get_checkpoint_directories "/a/b/ckpt.tmp"))
          || unwritable (snd (Demo.callback, Demo.disk))
               (snd (get_checkpoint_directories "/a/b/ckpt.tmp"))) with false in H.
  cbv iota in H.
  destruct H as (H1 & H2 & H3 & H5 & _ & _ & H8).
  split; [exact H1|]. split; [exact H2|]. split; [exact H3|].
  split; [exact H5|exact H8].
Defined.

End CallbackRuns.

Section DirectoryRule.
Import Pathlib PathSpec PyTree Diffusion Callbacks.
Open Scope string_scope.

Variable OptState : Type.

Lemma rmtree_run d cb w :
  rmtree d (cb, w) =
  match files w d with
  | None => (Raise (FileNotFoundError (fspath d)), (cb, w))
  | Some _ =>
      if undeletable w d
      then (Raise (refusal w d), (cb, set_files w (left_behind w d (files w))))
      else (Ok tt, (cb, set_files w (removed (files w) d)))
  end.
Proof. reflexivity. Qed.

(** The run of [_remove_checkpoint] in closed form. *)
Lemma remove_checkpoint_run (pl_module : JaxLightning OptState) filepath cb w :
  _remove_checkpoint pl_module filepath (cb, w) =
  let d := fst (get_checkpoint_directories filepath) in
  let d_ema := snd (get_checkpoint_directories filepath) in
  match files w d with
  | None => (Raise (FileNotFoundError (fspath d)), (cb, w))
  | Some _ =>
      if undeletable w d
      then (Raise (refusal w d), (cb, set_files w (left_behind w d (files w))))
      else
        let w1 := set_files w (removed (files w) d) in
        match files w1 d_ema with
        | None => (Raise (FileNotFoundError (fspath d_ema)), (cb, w1))
        | Some _ =>
            if undeletable w d_ema
            then (Raise (refusal w d_ema),
                  (cb, set_files w1 (left_behind w d_ema (files w1))))
            else (Ok tt, (cb, set_files w1 (removed (files w1) d_ema)))
        end
  end.
Proof.
  unfold _remove_checkpoint.
  destruct (get_checkpoint_directories filepath) as [d d_ema]. cbv zeta. cbn [fst snd].
  cbn [for_each]. unfold bindM at 1. rewrite rmtree_run.
  destruct (files w d); [|reflexivity].
  destruct (undeletable w d); [reflexivity|].
  unfold bindM. rewrite rmtree_run.
  destruct (files (set_files w (removed (files w) d)) d_ema); [|reflexivity].
  change (undeletable (set_files w (removed (files w) d)) d_ema)
    with (undeletable w d_ema).
  destruct (undeletable w d_ema); reflexivity.
Qed.

(** The run of [_link_checkpoint] in closed form. *)
Lemma link_run (pl_module : JaxLightning OptState) filepath linkpath cb w :
  _link_checkpoint pl_module filepath linkpath (cb, w) =
  let d := fst (get_checkpoint_directories filepath) in
  let d_ema := snd (get_checkpoint_directories filepath) in
  let l := fst (get_checkpoint_directories linkpath) in
  let l_ema := snd (get_checkpoint_directories linkpath) in
  let w1 := set_links (set_files w (link_effect w d l (files w)))
              (links w ++ [(fspath d, fspath l)]) in
  match link_error w d l with
  | Some err => (Raise err, (cb, w1))
  | None =>
      let w2 := set_links (set_files w1 (link_effect w d_ema l_ema (files w1)))
                  (links w1 ++ [(fspath d_ema, fspath l_ema)]) in
      match link_error w d_ema l_ema with
      | Some err => (Raise err, (cb, w2))
      | None => (Ok tt, (cb, w2))
      end
  end.
Proof.
  unfold _link_checkpoint.
  change (truediv (parent (Path linkpath)) (stem (Path linkpath)))
    with (fst (get_checkpoint_directories linkpath)).
  change (truediv (parent (Path linkpath)) (stem (Path linkpath) ++ "_ema"))
    with (snd (get_checkpoint_directories linkpath)).
  destruct (get_checkpoint_directories filepath) as [d d_ema].
  destruct (get_checkpoint_directories linkpath) as [l l_ema].
  cbv zeta. cbn [fst snd combine for_each].
  unfold bindM at 1. unfold parent_link_checkpoint at 1. cbn [fst snd].
  destruct (link_error w d l); [reflexivity|].
  unfold bindM. unfold parent_link_checkpoint. cbn [fst snd].
  change (link_error (set_links (set_files w (link_effect w d l (files w)))
                        (links w ++ [(fspath d, fspath l)])) d_ema l_ema)
    with (link_error w d_ema l_ema).
  destruct (link_error w d_ema l_ema); reflexivity.
Qed.

(** C4: the raw directory of a path [p] is [parent(p)/stem(p)] and the EMA
    directory is [parent(p)/(stem(p) + "_ema")]; the name of [p] is its stem
    followed by its suffix, so the suffix is what is left out; for
    "/a/b/ckpt.tmp" the two directories are "/a/b/ckpt" and "/a/b/ckpt_ema".
    The same two directories are the ones that saving writes, the raw
    parameters to the first and the EMA parameters to the second; that
    removing deletes, when both are on disk and the second is not inside the
    first; and that linking hands to the parent class, paired with the two
    directories derived from the link path by the same rule, the second pair
    only when the first link was made. *)
Theorem checkpoint_directories_rule :
  (forall p,
     get_checkpoint_directories p =
     (truediv (parent (Path p)) (stem (Path p)),
      truediv (parent (Path p)) (stem (Path p) ++ "_ema")))
  /\ (forall p, name (Path p) = stem (Path p) ++ suffix (Path p))
  /\ fspath (fst (get_checkpoint_directories "/a/b/ckpt.tmp")) = "/a/b/ckpt"
  /\ fspath (snd (get_checkpoint_directories "/a/b/ckpt.tmp")) = "/a/b/ckpt_ema"
  /\ (forall (pl_module : JaxLightning OptState) filepath st p e,
        params pl_module = Some p ->
        params_ema pl_module = Some e ->
        unwritable (snd st) (fst (get_checkpoint_directories filepath)) = false ->
        unwritable (snd st) (snd (get_checkpoint_directories filepath)) = false ->
        fst (_save_checkpoint pl_module filepath st) = Ok tt
        /\ files (snd (snd (_save_checkpoint pl_module filepath st)))
             (fst (get_checkpoint_directories filepath)) = Some (Checkpoint p)
        /\ files (snd (snd (_save_checkpoint pl_module filepath st)))
             (snd (get_checkpoint_directories filepath)) = Some (Checkpoint e))
  /\ (forall (pl_module : JaxLightning OptState) filepath st,
        files (snd st) (fst (get_checkpoint_directories filepath)) <> None ->
        files (snd st) (snd (get_checkpoint_directories filepath)) <> None ->
        is_relative_to (snd (get_checkpoint_directories filepath))
                       (fst (get_checkpoint_directories filepath)) = false ->
        undeletable (snd st) (fst (get_checkpoint_directories filepath)) = false ->
        undeletable (snd st) (snd (get_checkpoint_directories filepath)) = false ->
        fst (_remove_checkpoint pl_module filepath st) = Ok tt
        /\ files (snd (snd (_remove_checkpoint pl_module filepath st)))
             (fst (get_checkpoint_directories filepath)) = None
        /\ files (snd (snd (_remove_checkpoint pl_module filepath st)))
             (snd (get_checkpoint_directories filepath)) = None)
  /\ (forall (pl_module : JaxLightning OptState) filepath linkpath st,
        links (snd (snd (_link_checkpoint pl_module filepath linkpath st))) =
        (links (snd st) ++
         (fspath (fst (get_checkpoint_directories filepath)),
          fspath (fst (get_checkpoint_directories linkpath)))
         :: match link_error (snd st) (fst (get_checkpoint_directories filepath))
                    (fst (get_checkpoint_directories linkpath)) with
            | Some _ => []
            | None =>
                [(fspath (snd (get_checkpoint_directories filepath)),
                  fspath (snd (get_checkpoint_directories linkpath)))]
            end)%list).
Proof.
  split; [reflexivity|].
  split; [intro p; apply name_stem_suffix|].
  split; [reflexivity|].
  split; [reflexivity|].
  split; [|split].
  - intros pl_module filepath [cb w] p e Hp He U1 U2. cbn [fst snd] in *.
    rewrite (save_checkpoint_run pl_module filepath cb w Hp He). cbv zeta.
    rewrite U1, U2. cbn [fst snd set_notified set_files files].
    split; [reflexivity|].
    split; [apply written_keeps; [apply raw_outside_ema|apply written_at]|].
    apply written_at.
  - intros pl_module filepath [cb w] F1 F2 R U1 U2. cbn [fst snd] in *.
    rewrite remove_checkpoint_run. cbv zeta.
    destruct (files w (fst (get_checkpoint_directories filepath))); [|congruence].
    rewrite U1. cbn [set_files files].
    rewrite removed_outside by exact R.
    destruct (files w (snd (get_checkpoint_directories filepath))); [|congruence].
    rewrite U2. cbn [fst snd set_files files].
    split; [reflexivity|].
    split; [|apply removed_inside, is_relative_to_refl].
    rewrite removed_outside by apply raw_outside_ema.
    apply removed_inside, is_relative_to_refl.
  - intros pl_module filepath linkpath [cb w]. cbn [fst snd].
    rewrite link_run. cbv zeta.
    destruct (link_error w (fst (get_checkpoint_directories filepath))
                (fst (get_checkpoint_directories linkpath))).
    + reflexivity.
    + destruct (link_error w (snd (get_checkpoint_directories filepath))
                  (snd (get_checkpoint_directories linkpath)));
        cbn [fst snd set_links set_files links]; rewrite <- app_assoc; reflexivity.
Qed.

End DirectoryRule.

Section DirectoryRuleRuns.
Import Pathlib PathSpec PyTree Diffusion Callbacks.
Open Scope string_scope.

(** The rule of C4 at work on "/a/b/ckpt.tmp": saving fills "/a/b/ckpt" and
    "/a/b/ckpt_ema", removing empties them, and linking to "/a/b/last.ckpt"
    pairs them with "/a/b/last" and "/a/b/last_ema". *)
Lemma checkpoint_directories_demo :
  files (snd (snd (_save_checkpoint Demo.engine "/a/b/ckpt.tmp"
                     (Demo.callback, DemoDisks.empty)))) (Path "/a/b/ckpt")
  = Some (Checkpoint Demo.weights)
  /\ files (snd (snd (_save_checkpoint Demo.engine "/a/b/ckpt.tmp"
                        (Demo.callback, DemoDisks.empty)))) (Path "/a/b/ckpt_ema")
     = Some (Checkpoint Demo.shadow)
  /\ files DemoDisks.pair (Path "/a/b/ckpt") = Some (Checkpoint Demo.weights)
  /\ files (snd (snd (_remove_checkpoint Demo.engine "/a/b/ckpt.tmp"
                        (Demo.callback, DemoDisks.pair)))) (Path "/a/b/ckpt") = None
  /\ files (snd (snd (_remove_checkpoint Demo.engine "/a/b/ckpt.tmp"
                        (Demo.callback, DemoDisks.pair)))) (Path "/a/b/ckpt_ema") = None
  /\ links (snd (snd (_link_checkpoint Demo.engine "/a/b/ckpt.tmp" "/a/b/last.ckpt"
                        (Demo.callback, DemoDisks.pair))))
     = [("/a/b/ckpt", "/a/b/last"); ("/a/b/ckpt_ema", "/a/b/last_ema")].
Proof.
  destruct (@checkpoint_directories_rule unit) as (_ & _ & _ & _ & S & R & L).
  destruct (S Demo.engine "/a/b/ckpt.tmp" (Demo.callback, DemoDisks.empty)
              Demo.weights Demo.shadow eq_refl eq_refl eq_refl eq_refl)
    as (_ & S1 & S2).
  assert (H1 : files DemoDisks.pair (Path "/a/b/ckpt") <> None) by discriminate.
  assert (H2 : files DemoDisks.pair (Path "/a/b/ckpt_ema") <> None) by discriminate.
  destruct (R Demo.engine "/a/b/ckpt.tmp" (Demo.callback, DemoDisks.pair)
              H1 H2 eq_refl eq_refl eq_refl)
    as (_ & R1 & R2).
  split; [exact S1|]. split; [exact S2|]. split; [reflexivity|].
  split; [exact R1|]. split; [exact R2|].
  exact (L Demo.engine "/a/b/ckpt.tmp" "/a/b/last.ckpt" (Demo.callback, DemoDisks.pair)).
Defined.

End DirectoryRuleRuns.

(** ** Arrays and broadcasting *)

Section ArrayFacts.
Import Jnp.
Open Scope R_scope.

Lemma broadcast_rev_same s : broadcast_rev s s = Some s.
Proof.
  induction s as [|a s IH]; simpl; [reflexivity|].
  rewrite IH, Nat.eqb_refl. reflexivity.
Qed.

Lemma broadcast_shapes_same s : broadcast_shapes s s = Some s.
Proof.
  unfold broadcast_shapes. rewrite broadcast_rev_same. simpl.
  rewrite rev_involutive. reflexivity.
Qed.

Lemma valid_index_length s idx : valid_index s idx -> List.length idx = List.length s.
Proof. intro H. induction H; simpl; [reflexivity|f_equal; assumption]. Qed.

Lemma project_valid s idx : valid_index s idx -> project s idx = idx.
Proof.
  intro H. unfold project. rewrite (valid_index_length H), Nat.sub_diag. simpl.
  induction H as [|i d idx s Hlt H IH]; simpl; [reflexivity|].
  rewrite IH. f_equal.
  destruct (Nat.eqb_spec d 1); [lia|reflexivity].
Qed.

Lemma binop_same_shape f a b :
  shape a = shape b ->
  exists c, binop f a b = Ok c /\ shape c = shape a
            /\ forall idx, valid_index (shape a) idx ->
                           item c idx = f (item a idx) (item b idx).
Proof.
  intro E. unfold binop. rewrite <- E, broadcast_shapes_same.
  eexists. split; [reflexivity|]. split; [reflexivity|].
  intros idx H. simpl. rewrite (project_valid H). reflexivity.
Qed.

End ArrayFacts.

(** ** Parameter trees *)

Section TreeFacts.
Import Jnp PyTree TreeSpec.

Lemma bind_ok A B (r : result A) (k : A -> result B) b :
  Py.bind r k = Ok b -> exists a, r = Ok a /\ k a = Ok b.
Proof. destruct r as [a|e]; simpl; intro H; [eauto|discriminate]. Qed.

Lemma fmap_ok A B (f : A -> B) (r : result A) b :
  Py.fmap f r = Ok b -> exists a, r = Ok a /\ b = f a.
Proof.
  unfold Py.fmap. intro H. apply bind_ok in H. destruct H as (a & Ha & Hb).
  inversion Hb. eauto.
Qed.

Lemma leaf_at_dict A (items : list (string * pytree A)) k rest :
  leaf_at (Dict items) (k :: rest) =
  match lookup items k with
  | Some v => leaf_at v rest
  | None => None
  end.
Proof.
  simpl. induction items as [|[k' v] items IH]; simpl; [reflexivity|].
  destruct (String.eqb k' k); [reflexivity|exact IH].
Qed.

Lemma map2_items_lookup A B C (g : A -> B -> result C) :
  forall l1 l2 l3, map2_items g l1 l2 = Ok l3 ->
  forall k,
    match lookup l1 k with
    | Some v1 => exists v2 v3, lookup l2 k = Some v2 /\ lookup l3 k = Some v3
                               /\ g v1 v2 = Ok v3
    | None => lookup l3 k = None
    end.
Proof.
  induction l1 as [|[k1 v1] r1 IH]; intros [|[k2 v2] r2] l3 H k; simpl in H;
    try discriminate.
  - inversion H. reflexivity.
  - destruct (String.eqb_spec k1 k2) as [E|N]; [subst k2|discriminate].
    apply bind_ok in H. destruct H as (v & Hv & H).
    apply bind_ok in H. destruct H as (r & Hr & H). inversion H; subst l3.
    simpl. destruct (String.eqb k1 k).
    + exists v2, v. auto.
    + apply (IH r2 r Hr k).
Qed.

(** A leaf of the first tree is combined with the leaf of the second tree at
    the same path. *)
Lemma tree_map2_leaf_at A B C (f : A -> B -> result C) :
  forall path t1 t2 t3, tree_map2 f t1 t2 = Ok t3 ->
  match leaf_at t1 path with
  | Some a => exists b c, leaf_at t2 path = Some b /\ leaf_at t3 path = Some c
                          /\ f a b = Ok c
  | None => leaf_at t3 path = None
  end.
Proof.
  induction path as [|k rest IH]; intros t1 t2 t3 H.
  - destruct t1 as [a|l1], t2 as [b|l2]; simpl in H; try discriminate.
    + apply fmap_ok in H. destruct H as (c & Hc & ->). simpl. eauto.
    + apply fmap_ok in H. destruct H as (l3 & _ & ->). reflexivity.
  - destruct t1 as [a|l1], t2 as [b|l2]; simpl in H; try discriminate.
    + apply fmap_ok in H. destruct H as (c & Hc & ->). reflexivity.
    + apply fmap_ok in H. destruct H as (l3 & Hl & ->).
      rewrite !leaf_at_dict.
      pose proof (map2_items_lookup _ _ _ Hl k) as L.
      destruct (lookup l1 k) as [v1|].
      * destruct L as (v2 & v3 & -> & -> & Hv). apply (IH _ _ _ Hv).
      * rewrite L. reflexivity.
Qed.

Lemma skeleton_dict items :
  skeleton (Dict items) =
  Dict (List.map (fun kv => (fst kv, skeleton (snd kv))) items).
Proof. reflexivity. Qed.

(** Combining two trees of the same keys and shapes with an operation that
    keeps the common shape gives a tree of these keys and shapes. *)
Lemma tree_map2_skeleton (f : array -> array -> result array) :
  (forall a b c, shape a = shape b -> f a b = Ok c -> shape c = shape a) ->
  forall t1 t2 t3, skeleton t1 = skeleton t2 -> tree_map2 f t1 t2 = Ok t3 ->
  skeleton t3 = skeleton t1.
Proof.
  intros Hf t1. induction t1 as [a|l1 IH] using pytree_induction;
    intros [b|l2] t3 S H; simpl in H; try discriminate.
  - apply fmap_ok in H. destruct H as (c & Hc & ->).
    unfold skeleton in *. simpl in *. inversion S as [S'].
    rewrite (Hf _ _ _ S' Hc). reflexivity.
  - apply fmap_ok in H. destruct H as (l3 & Hl & ->).
    rewrite !skeleton_dict in *. f_equal. inversion S as [S']. clear S.
    revert l2 l3 S' Hl. induction IH as [|[k1 v1] r1 Hv _ IHr]; intros [|[k2 v2] r2] l3 S' Hl;
      simpl in Hl; try discriminate.
    + inversion Hl. reflexivity.
    + destruct (String.eqb k1 k2); [|discriminate].
      apply bind_ok in Hl. destruct Hl as (v & Hv' & Hl).
      apply bind_ok in Hl. destruct Hl as (r & Hr & Hl). inversion Hl; subst l3.
      simpl in S'. inversion S' as [[Sk Sv Sr]]. simpl.
      rewrite (Hv _ _ Sv Hv'), (IHr _ _ Sr Hr). reflexivity.
Qed.

(** On trees of the same keys and shapes the combination is defined as soon
    as the operation is defined on leaves of one shape. *)
Lemma tree_map2_total (f : array -> array -> result array) :
  (forall a b, shape a = shape b -> exists c, f a b = Ok c) ->
  forall t1 t2, skeleton t1 = skeleton t2 -> exists t3, tree_map2 f t1 t2 = Ok t3.
Proof.
  intros Hf t1. induction t1 as [a|l1 IH] using pytree_induction;
    intros [b|l2] S; try discriminate.
  - inversion S as [S']. destruct (Hf _ _ S') as (c & Hc).
    exists (Leaf c). simpl. rewrite Hc. reflexivity.
  - rewrite !skeleton_dict in S. inversion S as [S']. clear S.
    assert (X : exists l3, map2_items (tree_map2 f) l1 l2 = Ok l3).
    { revert l2 S'. induction IH as [|[k1 v1] r1 Hv _ IHr]; intros [|[k2 v2] r2] S';
        try discriminate.
      - exists []. reflexivity.
      - simpl in S'. inversion S' as [[Sk Sv Sr]]. simpl.
        rewrite String.eqb_refl.
        cbn [snd] in Hv.
        destruct (Hv _ Sv) as (v & ->). destruct (IHr _ Sr) as (r & ->).
        simpl. eauto. }
    destruct X as (l3 & Hl). exists (Dict l3). simpl. rewrite Hl. reflexivity.
Qed.

End TreeFacts.

(** ** The training step and the moving average *)

Section StepFacts.
Import Jnp PyTree TreeSpec Diffusion.
Open Scope R_scope.

Variable OptState : Type.
Variable env : Env OptState.

Lemma ema_update_same_shape (self : JaxLightning OptState) p e :
  shape p = shape e ->
  exists v, ema_update self p e = Ok v /\ shape v = shape e
            /\ forall idx, valid_index (shape e) idx ->
                 item v idx = item e idx + (item p idx - item e idx) / ema_ts self.
Proof.
  intro E. unfold ema_update.
  destruct (binop_same_shape Rminus p e E) as (d & Hd & Sd & Id).
  change (sub p e) with (binop Rminus p e). rewrite Hd. simpl Py.bind.
  assert (E' : shape e = shape (div_scalar d (ema_ts self)))
    by (simpl; congruence).
  destruct (binop_same_shape Rplus e (div_scalar d (ema_ts self)) E')
    as (v & Hv & Sv & Iv).
  exists v. split; [exact Hv|]. split; [exact Sv|].
  intros idx H. rewrite (Iv idx H). simpl. rewrite Id; [reflexivity|].
  rewrite E. exact H.
Qed.

Lemma ema_update_shape (self : JaxLightning OptState) a b c :
  shape a = shape b -> ema_update self a b = Ok c -> shape c = shape a.
Proof.
  intros E H. destruct (ema_update_same_shape self a b E) as (v & Hv & Sv & _).
  rewrite Hv in H. inversion H; subst. congruence.
Qed.

Lemma add_shape a b c : shape a = shape b -> add a b = Ok c -> shape c = shape a.
Proof.
  intros E H. destruct (binop_same_shape Rplus a b E) as (v & Hv & Sv & _).
  unfold add in H. rewrite Hv in H. inversion H; subst. exact Sv.
Qed.

(** What [step] returns, read off its definition. *)
Lemma step_inv (self : JaxLightning OptState) key batch cond params params_ema
    opt_state l m p' e' s' :
  step env self key batch cond params params_ema opt_state = Ok (l, m, p', e', s') ->
  exists opt,
    optimizer self = Some opt
    /\ loss env self key batch cond params = Ok (l, m)
    /\ apply_updates params
         (fst (update opt (grad env (loss env self key batch cond) params) opt_state))
       = Ok p'
    /\ s' = snd (update opt (grad env (loss env self key batch cond) params) opt_state)
    /\ tree_map2 (ema_update self) p' params_ema = Ok e'.
Proof.
  unfold step, loss_and_grad. intro H.
  apply bind_ok in H. destruct H as ([[l0 m0] g] & H1 & H).
  apply bind_ok in H1. destruct H1 as (v & Hv & H1). inversion H1; subst v g.
  apply bind_ok in H. destruct H as (opt & Ho & H).
  destruct (optimizer self) as [opt'|] eqn:O; [|discriminate]. inversion Ho; subst opt'.
  destruct (update opt _ opt_state) as [updates s0] eqn:U.
  apply bind_ok in H. destruct H as (p0 & Hp & H).
  apply bind_ok in H. destruct H as (e0 & He & H).
  inversion H; subst. exists opt. rewrite U. simpl.
  repeat (split; [first [reflexivity|assumption]|]). assumption.
Qed.

(** C3: the second parameter set returned by [step] holds, at every leaf of
    the first parameter set it returns, the old moving average moved towards
    the new parameters by one [ema_ts]-th of their difference, and it has no
    other leaf; [ema_ts] is the quotient of the configured epochs and folding
    count computed by [__init__], and neither [setup], [configure_optimizers]
    nor [training_step] changes it. *)
Theorem step_ema_rule :
  (forall cfg key dataloaders std cond_fn model pred constr diffusion trainer self,
     __init__ OptState cfg key dataloaders std cond_fn model pred constr diffusion trainer
       = Ok self ->
     ema_ts self = IZR (epochs cfg) / IZR (ema_folding_count cfg))
  /\ (forall self stage self', setup env self stage = Ok self' ->
        ema_ts self' = ema_ts self)
  /\ (forall self self', configure_optimizers env self = Ok self' ->
        ema_ts self' = ema_ts self)
  /\ (forall self batch i self' out, training_step env self batch i = Ok (self', out) ->
        ema_ts self' = ema_ts self)
  /\ (forall (self : JaxLightning OptState) key batch cond params params_ema
             opt_state l m p' e' s',
        step env self key batch cond params params_ema opt_state
          = Ok (l, m, p', e', s') ->
        forall path,
          match leaf_at p' path with
          | Some p =>
              exists e v,
                leaf_at params_ema path = Some e
                /\ leaf_at e' path = Some v
                /\ ema_update self p e = Ok v
                /\ (shape p = shape e ->
                    shape v = shape e
                    /\ forall idx, valid_index (shape e) idx ->
                         item v idx
                         = item e idx + (item p idx - item e idx) / ema_ts self)
          | None => leaf_at e' path = None
          end).
Proof.
  split.
  { intros c k dl std cf mdl pr pc dif tr self H. unfold __init__ in H.
    apply bind_ok in H. destruct H as (b & _ & H).
    apply bind_ok in H. destruct H as (ts & Hts & H).
    destruct (ema_folding_count c =? 0)%Z; [discriminate|].
    inversion Hts; subst ts. inversion H. reflexivity. }
  split.
  { intros self stage self' H. unfold setup in H.
    destruct (String.eqb stage "fit").
    - destruct (split env (key self)) as [k kt].
      apply bind_ok in H. destruct H as (p & _ & H). inversion H. reflexivity.
    - destruct (String.eqb stage "val"); [inversion H; reflexivity|].
      destruct (String.eqb stage "predict"); [inversion H; reflexivity|discriminate]. }
  split.
  { intros self self' H. unfold configure_optimizers in H.
    apply bind_ok in H. destruct H as (p & _ & H). inversion H. reflexivity. }
  split.
  { intros self batch i self' out H. unfold training_step in H.
    destruct (split env (key self)) as [k kt].
    apply bind_ok in H. destruct H as (p & _ & H).
    apply bind_ok in H. destruct H as (e & _ & H).
    apply bind_ok in H. destruct H as (s & _ & H).
    apply bind_ok in H. destruct H as ([[[[l m] p'] e'] s'] & _ & H).
    apply bind_ok in H. destruct H as ([le me] & _ & H).
    inversion H. reflexivity. }
  intros self key batch cond params params_ema opt_state l m p' e' s' H path.
  apply step_inv in H. destruct H as (opt & _ & _ & _ & _ & He).
  pose proof (tree_map2_leaf_at (ema_update self) path _ _ He) as L.
  destruct (leaf_at p' path) as [p|]; [|exact L].
  destruct L as (e & v & H1 & H2 & H3). exists e, v.
  repeat (split; [assumption|]).
  intro E. destruct (ema_update_same_shape self p e E) as (v' & Hv & Sv & Iv).
  rewrite Hv in H3. inversion H3; subst v'. auto.
Qed.

End StepFacts.

Section StepRuns.
Import Jnp PyTree TreeSpec Diffusion.
Open Scope R_scope.
Open Scope string_scope.

(** C3 on the demo instance: one step from the weights and their shadow; the
    bias leaf of the returned average is the old average moved by half of its
    distance to the new bias, [ema_ts] being 2. *)
Lemma step_ema_demo :
  exists l m p' e' s',
    step Demo.libs Demo.engine (0%N, 0%N) Demo.batch None Demo.weights Demo.shadow tt
    = Ok (l, m, p', e', s')
    /\ exists p e v,
         leaf_at p' ["dense"; "bias"] = Some p
         /\ leaf_at Demo.shadow ["dense"; "bias"] = Some e
         /\ leaf_at e' ["dense"; "bias"] = Some v
         /\ shape v = [3%nat]
         /\ item v [0%nat] = item e [0%nat] + (item p [0%nat] - item e [0%nat]) / 2.
Proof.
  pose proof (proj2 (proj2 (proj2 (proj2 (step_ema_rule Demo.libs))))
                Demo.engine (0%N, 0%N) Demo.batch None Demo.weights Demo.shadow tt) as H.
  specialize (H _ _ _ _ _ eq_refl ["dense"; "bias"]).
  do 5 eexists. split; [reflexivity|].
  cbn [leaf_at lookup String.eqb Ascii.eqb Bool.eqb] in H.
  destruct H as (e & v & He & Hv & Hu & Hs).
  pose proof He as He'.
  cbn [leaf_at lookup String.eqb Ascii.eqb Bool.eqb Demo.shadow] in He'.
  injection He' as He'. subst e.
  destruct (Hs eq_refl) as (S1 & S2).
  eexists. eexists. exists v. split; [reflexivity|]. split; [exact He|].
  split; [exact Hv|]. split; [exact S1|].
  apply S2. repeat constructor.
Defined.

End StepRuns.

(** ** The raw and the averaged parameters keep one structure *)

Section StructureFacts.
Import Jnp PyTree TreeSpec Diffusion EngineSpec.

Variable OptState : Type.
Variable env : Env OptState.

(** jax.grad returns a tree of the keys and shapes of its argument. *)
Hypothesis grad_structure : forall f q, skeleton (grad env f q) = skeleton q.

Lemma step_structure (self : JaxLightning OptState) opt key batch cond p e s l m p' e' s' :
  optimizer self = Some opt ->
  (forall g st, skeleton (fst (update opt g st)) = skeleton g) ->
  skeleton p = skeleton e ->
  step env self key batch cond p e s = Ok (l, m, p', e', s') ->
  skeleton p' = skeleton p /\ skeleton e' = skeleton p'.
Proof.
  intros Ho Hu S H. apply step_inv in H.
  destruct H as (opt' & Ho' & _ & Hp & _ & He).
  rewrite Ho in Ho'. inversion Ho'; subst opt'.
  assert (Sp : skeleton p' = skeleton p).
  { apply (@tree_map2_skeleton add add_shape) with (2 := Hp).
    rewrite Hu, grad_structure. reflexivity. }
  split; [exact Sp|].
  apply (@tree_map2_skeleton (ema_update self) (@ema_update_shape _ self)) with (2 := He).
  congruence.
Qed.

Lemma training_step_structure (self : JaxLightning OptState) opt batch i self' out p e :
  optimizer self = Some opt ->
  (forall g st, skeleton (fst (update opt g st)) = skeleton g) ->
  params self = Some p -> params_ema self = Some e ->
  skeleton p = skeleton e ->
  training_step env self batch i = Ok (self', out) ->
  optimizer self' = Some opt
  /\ cfg self' = cfg self
  /\ exists p' e', params self' = Some p' /\ params_ema self' = Some e'
                   /\ skeleton p' = skeleton e'.
Proof.
  intros Ho Hu Hp He S H. unfold training_step in H.
  destruct (split env (key self)) as [k kt].
  apply bind_ok in H. destruct H as (p0 & Hp0 & H).
  apply bind_ok in H. destruct H as (e0 & He0 & H).
  apply bind_ok in H. destruct H as (s0 & _ & H).
  simpl in Hp0, He0. rewrite Hp in Hp0. rewrite He in He0.
  inversion Hp0; subst p0. inversion He0; subst e0.
  apply bind_ok in H. destruct H as ([[[[l m] p'] e'] s'] & Hs & H).
  apply bind_ok in H. destruct H as ([le me] & _ & H).
  inversion H; subst self' out. simpl.
  split; [exact Ho|]. split; [reflexivity|].
  exists p', e'. split; [reflexivity|]. split; [reflexivity|].
  assert (Ho' : optimizer (set_key self k) = Some opt) by exact Ho.
  destruct (step_structure _ _ _ _ _ _ _ Ho' Hu S Hs) as (_ & Se).
  symmetry. exact Se.
Qed.

(** C6: after [setup('fit')] the averaged parameters are the raw parameters
    themselves, so both have the same keys and leaf shapes; [step] returns
    parameter sets of the same keys and leaf shapes whenever it is given such
    sets; and so have the two parameter sets of every engine of a training
    run.  The optimizer is assumed to return updates shaped like the
    gradients, as jax.grad is assumed to return gradients shaped like the
    parameters. *)
Theorem ema_raw_same_structure (self0 : JaxLightning OptState) :
  (forall g st,
     skeleton (fst (update (adam env (learning_rate (cfg self0))) g st)) = skeleton g) ->
  (forall self1, setup env self0 "fit" = Ok self1 ->
     exists p, params self1 = Some p /\ params_ema self1 = Some p)
  /\ (forall self, trained env self0 self ->
        forall key batch cond p e s l m p' e' s',
          skeleton p = skeleton e ->
          step env self key batch cond p e s = Ok (l, m, p', e', s') ->
          skeleton p' = skeleton e')
  /\ (forall self, trained env self0 self ->
        exists p e, params self = Some p /\ params_ema self = Some e
                    /\ skeleton p = skeleton e).
Proof.
  intro Hu.
  assert (Hsetup : forall self1, setup env self0 "fit" = Ok self1 ->
            cfg self1 = cfg self0
            /\ exists p, params self1 = Some p /\ params_ema self1 = Some p).
  { intros self1 H. unfold setup in H. simpl in H.
    destruct (split env (key self0)) as [k kt].
    apply bind_ok in H. destruct H as (p & _ & H). inversion H; subst self1.
    simpl. split; [reflexivity|]. exists p. auto. }
  assert (Inv : forall self, trained env self0 self ->
            optimizer self = Some (adam env (learning_rate (cfg self0)))
            /\ cfg self = cfg self0
            /\ exists p e, params self = Some p /\ params_ema self = Some e
                           /\ skeleton p = skeleton e).
  { intros self T. induction T as [self1 self2 H1 H2|self batch i self' out T IH H].
    - destruct (Hsetup _ H1) as (C & p & Hp & He).
      unfold configure_optimizers in H2.
      apply bind_ok in H2. destruct H2 as (q & _ & H2). inversion H2; subst self2.
      simpl. rewrite C. split; [reflexivity|]. split; [reflexivity|].
      exists p, p. auto.
    - destruct IH as (Ho & C & p & e & Hp & He & S).
      destruct (training_step_structure _ _ _ Ho Hu Hp He S H) as (Ho' & C' & R).
      split; [exact Ho'|]. split; [congruence|exact R]. }
  split; [intros self1 H; apply (Hsetup _ H)|].
  split.
  - intros self T key batch cond p e s l m p' e' s' S H.
    destruct (Inv _ T) as (Ho & _).
    destruct (step_structure _ _ _ _ _ _ _ Ho Hu S H) as (_ & Se).
    symmetry. exact Se.
  - intros self T. apply (Inv _ T).
Qed.

End StructureFacts.

Section StructureRuns.
Import Jnp PyTree TreeSpec Diffusion EngineSpec.

(** C6 on the demo instance: set up, configure the optimizer, take one
    training step; the two parameter sets of the engine have the same keys
    and leaf shapes. *)
Lemma structure_demo :
  exists self1 self2 self3 out p e,
    setup Demo.libs Demo.engine "fit" = Ok self1
    /\ configure_optimizers Demo.libs self1 = Ok self2
    /\ training_step Demo.libs self2 Demo.batch 0 = Ok (self3, out)
    /\ params self3 = Some p /\ params_ema self3 = Some e
    /\ skeleton p = skeleton e.
Proof.
  destruct (@ema_raw_same_structure unit Demo.libs (fun f q => eq_refl) Demo.engine
              (fun g st => eq_refl)) as (_ & _ & H).
  assert (T : exists self1 self2 self3 out,
             setup Demo.libs Demo.engine "fit" = Ok self1
             /\ configure_optimizers Demo.libs self1 = Ok self2
             /\ training_step Demo.libs self2 Demo.batch 0 = Ok (self3, out)).
  { assert (K : is_ok (Py.bind (setup Demo.libs Demo.engine "fit") (fun s1 =>
                       Py.bind (configure_optimizers Demo.libs s1) (fun s2 =>
                       training_step Demo.libs s2 Demo.batch 0))) = true)
      by (vm_compute; reflexivity).
    destruct (setup Demo.libs Demo.engine "fit") as [s1|] eqn:E1; [|discriminate K].
    cbn [Py.bind] in K.
    destruct (configure_optimizers Demo.libs s1) as [s2|] eqn:E2; [|discriminate K].
    cbn [Py.bind] in K.
    destruct (training_step Demo.libs s2 Demo.batch 0) as [[s3 o]|] eqn:E3;
      [|discriminate K].
    exists s1, s2, s3, o. split; [reflexivity|]. split; [exact E2|exact E3]. }
  destruct T as (self1 & self2 & self3 & out & H1 & H2 & H3).
  assert (Tr : trained Demo.libs Demo.engine self3)
    by (eapply trained_step; [eapply trained_setup; eassumption|eassumption]).
  destruct (H self3 Tr) as (p & e & Hp & He & S).
  exists self1, self2, self3, out, p, e.
  repeat (split; [assumption|]). assumption.
Defined.

End StructureRuns.

(** ** The lifecycle hooks of the engine *)

Section EngineFacts.
Import Jnp PyTree TreeSpec Diffusion EngineSpec.
Open Scope string_scope.

Variable OptState : Type.
Variable env : Env OptState.

(** [setup] raises for every stage but the three it compares with. *)
Lemma setup_unknown_stage (self : JaxLightning OptState) stage :
  stage <> "fit" -> stage <> "val" -> stage <> "predict" ->
  setup env self stage = Raise (ValueError ("Unknown stage: " ++ stage)).
Proof.
  intros H1 H2 H3. unfold setup.
  apply String.eqb_neq in H1, H2, H3. rewrite H1, H2, H3. reflexivity.
Qed.

(** C2, the code at the failing input: the stage "validate" is refused with
    the error of an unknown stage, while the stage "val", which is outside
    fit, validate and predict, is accepted and changes nothing. *)
Theorem setup_refuses_validate (self : JaxLightning OptState) :
  setup env self "validate" = Raise (ValueError "Unknown stage: validate")
  /\ setup env self "val" = Ok self
  /\ setup env self "predict" = Ok self
  /\ setup env self "test" = Raise (ValueError "Unknown stage: test").
Proof. repeat split. Qed.

(** The score callback does not read the parameters stored in the engine. *)
Lemma score_closure_set_params (self : JaxLightning OptState) p e n cond q :
  score_closure (set_params self p e) n cond q = score_closure self n cond q.
Proof. reflexivity. Qed.

(** C9: without a [params] argument, [sample] and [compute_nll] hand the
    samplers the score callback closed over [self.params_ema]: the call is
    the call with [params_ema] passed explicitly, the callback evaluates
    [score] on these parameters, and the raw parameters stored in the engine
    have no part in the result. *)
Theorem sample_defaults_to_ema (self : JaxLightning OptState) (e : params_t) :
  params_ema self = Some e ->
  (forall key tmax cond x_shape keep_path,
     sample env self key tmax cond x_shape None keep_path
     = sde_sample env (diffusion self)
         (score_closure self (first_axis x_shape) cond e)
         key x_shape (time_step_count_sampling (cfg self)) keep_path
     /\ sample env self key tmax cond x_shape None keep_path
        = sample env self key tmax cond x_shape (Some e) keep_path
     /\ forall raw,
          sample env (set_params self raw (Some e)) key tmax cond x_shape None keep_path
          = sample env self key tmax cond x_shape None keep_path)
  /\ (forall key tmax x_data,
        compute_nll env self key tmax x_data None
        = samplers_compute_nll env (diffusion self)
            (score_closure self (shape0 x_data) None e) key x_data
        /\ compute_nll env self key tmax x_data None
           = compute_nll env self key tmax x_data (Some e)
        /\ forall raw,
             compute_nll env (set_params self raw (Some e)) key tmax x_data None
             = compute_nll env self key tmax x_data None)
  /\ (forall n cond x t d ds,
        shape t = d :: ds ->
        score_closure self n cond e x (TimeArray t) = score self x t cond e false).
Proof.
  intro He. split; [|split].
  - intros key tmax cond x_shape keep. unfold sample. rewrite He. simpl.
    repeat split.
  - intros key tmax x_data. unfold compute_nll. rewrite He. simpl.
    repeat split.
  - intros n cond x t d ds Ht. unfold score_closure. rewrite Ht. reflexivity.
Qed.

(** C10: when the monitor is not the EMA relative error, [validation_step]
    returns -1 during the sanity check, and otherwise the entry of the
    callback metrics under the monitor's name (a missing entry is a
    KeyError); the batch has no part in the value returned. *)
Theorem validation_step_echoes_monitor (self : JaxLightning OptState) (value : string) :
  ckpt_monitor (cfg self) = Monitor value ->
  forall batch batch_idx,
    let self' := set_key self (fst (split env (key self))) in
    (sanity_checking (trainer self) = true ->
       validation_step env self batch batch_idx = Ok (self', (-1)%R))
    /\ (sanity_checking (trainer self) = false ->
          (forall v, getitem (callback_metrics (trainer self)) value = Ok v ->
                     validation_step env self batch batch_idx = Ok (self', v))
          /\ (forall err, getitem (callback_metrics (trainer self)) value = Raise err ->
                          validation_step env self batch batch_idx = Raise err)).
Proof.
  intros Hm batch i. cbv zeta. unfold validation_step.
  destruct (split env (key self)) as [k kv]. simpl fst.
  change (ckpt_monitor (cfg (set_key self k))) with (ckpt_monitor (cfg self)).
  rewrite Hm.
  change (trainer (set_key self k)) with (trainer self).
  split.
  - intros ->. reflexivity.
  - intros ->. split; intros v ->; reflexivity.
Qed.

(** The random draws of [loss] are decided by the key and the batch. *)
Lemma loss_draws_same (self self' : JaxLightning OptState) key x_data :
  diffusion self' = diffusion self ->
  loss_draws env self' key x_data = loss_draws env self key x_data.
Proof. intro E. unfold loss_draws. rewrite E. reflexivity. Qed.

(** C7: a successful [training_step] splits the key once, runs [step] with
    the training half, and then evaluates [loss] - the function itself, not
    its gradient - on the averaged parameters returned by [step] with the
    same training half; it reports that value as [loss_ema], and the draws of
    times and noise of this evaluation are those of the raw loss of the
    step. *)
Theorem training_step_reports_ema_loss (self : JaxLightning OptState) batch batch_idx
    self' out :
  training_step env self batch batch_idx = Ok (self', out) ->
  exists p e s m p' e' s',
    let key_train := snd (split env (key self)) in
    let self1 := set_key self (fst (split env (key self))) in
    let cond := cond_fn self batch in
    params self = Some p /\ params_ema self = Some e /\ opt_state self = Some s
    /\ step env self1 key_train batch cond p e s = Ok (out_loss out, m, p', e', s')
    /\ loss env self1 key_train batch cond p = Ok (out_loss out, m)
    /\ params self' = Some p' /\ params_ema self' = Some e'
    /\ loss env self' key_train batch cond e'
       = Ok (out_loss_ema out, out_monitors_ema out)
    /\ loss_draws env self' key_train batch = loss_draws env self1 key_train batch.
Proof.
  intro H. unfold training_step in H. cbv zeta.
  destruct (split env (key self)) as [k kt]. simpl fst. simpl snd.
  apply bind_ok in H. destruct H as (p & Hp & H).
  apply bind_ok in H. destruct H as (e & He & H).
  apply bind_ok in H. destruct H as (s & Hs & H).
  apply bind_ok in H. destruct H as ([[[[l m] p'] e'] s'] & Hstep & H).
  apply bind_ok in H. destruct H as ([le me] & Hl & H).
  inversion H; subst self' out. clear H.
  exists p, e, s, m, p', e', s'. simpl.
  cbn [params params_ema opt_state set_key] in Hp, He, Hs.
  destruct (params self) as [p0|] eqn:P; [|discriminate].
  destruct (params_ema self) as [e0|] eqn:E; [|discriminate].
  destruct (opt_state self) as [s0|] eqn:S; [|discriminate].
  simpl in Hp, He, Hs. inversion Hp; inversion He; inversion Hs; subst.
  split; [reflexivity|]. split; [reflexivity|]. split; [reflexivity|].
  split; [exact Hstep|].
  split; [destruct (step_inv _ _ _ _ _ _ _ _ Hstep) as (o & _ & L & _); exact L|].
  split; [reflexivity|]. split; [reflexivity|].
  split; [exact Hl|reflexivity].
Qed.

End EngineFacts.

Section EngineRuns.
Import Jnp PyTree TreeSpec Diffusion EngineSpec.
Open Scope string_scope.

(** C9 on the demo instance, whose averaged parameters differ from the raw
    ones: sampling without parameters is sampling with the averaged ones. *)
Lemma sample_demo :
  params_ema Demo.engine = Some Demo.shadow
  /\ sample Demo.libs Demo.engine (0%N, 0%N) 1 None [2; 3; 1]%nat None false
     = sample Demo.libs Demo.engine (0%N, 0%N) 1 None [2; 3; 1]%nat (Some Demo.shadow) false
  /\ compute_nll Demo.libs Demo.engine (0%N, 0%N) 1 Demo.batch None
     = compute_nll Demo.libs Demo.engine (0%N, 0%N) 1 Demo.batch (Some Demo.shadow).
Proof.
  destruct (@sample_defaults_to_ema unit Demo.libs Demo.engine Demo.shadow eq_refl)
    as (Hs & Hn & _).
  split; [reflexivity|]. split.
  - apply (Hs (0%N, 0%N) 1%R None [2; 3; 1]%nat false).
  - apply (Hn (0%N, 0%N) 1%R Demo.batch).
Defined.

(** C10 on the demo instance: the monitor is "val_loss" and the trainer is
    checking sanity, so the step returns -1. *)
Lemma validation_step_demo :
  ckpt_monitor (cfg Demo.engine) = Monitor "val_loss"
  /\ sanity_checking (trainer Demo.engine) = true
  /\ validation_step Demo.libs Demo.engine Demo.batch 0
     = Ok (set_key Demo.engine (fst (split Demo.libs (key Demo.engine))), (-1)%R).
Proof.
  split; [reflexivity|]. split; [reflexivity|].
  exact (proj1 (@validation_step_echoes_monitor unit Demo.libs Demo.engine "val_loss"
                  eq_refl Demo.batch 0) eq_refl).
Defined.

(** C7 on the demo instance: the training step succeeds, and the EMA loss it
    reports is the loss of the returned averaged parameters under the
    training half of the key. *)
Lemma training_step_demo :
  exists self' out e',
    training_step Demo.libs Demo.engine Demo.batch 0 = Ok (self', out)
    /\ params_ema self' = Some e'
    /\ loss Demo.libs self' (snd (split Demo.libs (key Demo.engine))) Demo.batch
         (cond_fn Demo.engine Demo.batch) e'
       = Ok (out_loss_ema out, out_monitors_ema out).
Proof.
  assert (K : is_ok (training_step Demo.libs Demo.engine Demo.batch 0) = true)
    by (vm_compute; reflexivity).
  destruct (training_step Demo.libs Demo.engine Demo.batch 0) as [[self' out]|] eqn:T;
    [|discriminate K].
  destruct (@training_step_reports_ema_loss unit Demo.libs Demo.engine Demo.batch 0
              self' out T)
    as (p & e & s & m & p' & e' & s' & _ & _ & _ & _ & _ & _ & He & Hl & _).
  exists self', out, e'. split; [reflexivity|]. split; [exact He|exact Hl].
Defined.

End EngineRuns.

(** ** The scaled score *)

Section ScoreFacts.
Import Jnp PyTree Diffusion.
Open Scope R_scope.

Variable OptState : Type.

Lemma binop_ok f a b s :
  broadcast_shapes (shape a) (shape b) = Some s ->
  binop f a b
  = Ok (mkArray s (fun idx => f (item a (project (shape a) idx))
                                (item b (project (shape b) idx)))).
Proof. intro H. unfold binop. rewrite H. reflexivity. Qed.

Lemma broadcast_batch n a b :
  broadcast_shapes [n; a; b] [n; 1%nat; 1%nat] = Some [n; a; b].
Proof.
  unfold broadcast_shapes. simpl. rewrite Nat.eqb_refl.
  destruct (Nat.eqb_spec b 1) as [->|]; destruct (Nat.eqb_spec a 1) as [->|];
    reflexivity.
Qed.

Lemma project_batch n a b i j k :
  (i < n)%nat -> (j < a)%nat -> (k < b)%nat ->
  project [n; a; b] [i; j; k] = [i; j; k].
Proof.
  intros. apply project_valid. repeat constructor; assumption.
Qed.

Lemma project_time n i j k :
  (i < n)%nat -> project [n; 1%nat; 1%nat] [i; j; k] = [i; 0%nat; 0%nat].
Proof.
  intro H. unfold project. simpl.
  destruct (Nat.eqb_spec n 1); [|reflexivity].
  replace i with 0%nat by lia. reflexivity.
Qed.

(** The two ways the source writes the squared scale are one number. *)
Lemma scales_agree sg sc std :
  sg ^ 2 + (sc * std) ^ 2 = sg ^ 2 + sc ^ 2 * std ^ 2.
Proof. ring. Qed.

(** C5: on a batch [x] of shape (n, a, b) and times [t] of shape (n, 1, 1),
    with a diffusion process whose [sigma] and [scale] keep the shape of [t],
    [score] calls the model on [x] multiplied, example by example, by
    1/sqrt(sigma^2 + (scale*std)^2), on [t] squeezed to shape (n), and on
    [cond] divided by [std] when there is one; it returns the output of the
    model divided by sqrt(sigma^2 + scale^2*std^2), which is the inverse of
    the input factor; and when the model returns an array of the shape of its
    input, the result has the shape of [x].  An exception of the model is the
    exception of [score]. *)
Theorem score_scaling (self : JaxLightning OptState) x t cond params train n a b :
  shape x = [n; a; b] ->
  shape t = [n; 1%nat; 1%nat] ->
  shape (sigma (diffusion self) t) = shape t ->
  shape (scale (diffusion self) t) = shape t ->
  (forall xin tsq c out,
     apply (model self) params xin tsq train c = Ok out -> shape out = shape xin) ->
  let std := train_data_std self in
  let sg := fun i => item (sigma (diffusion self) t) [i; 0%nat; 0%nat] in
  let sc := fun i => item (scale (diffusion self) t) [i; 0%nat; 0%nat] in
  let c_in := fun i => 1 / R_sqrt.sqrt (sg i ^ 2 + (sc i * std) ^ 2) in
  let c_out := fun i => R_sqrt.sqrt (sg i ^ 2 + sc i ^ 2 * std ^ 2) in
  let cond' := option_map (fun c => div_scalar c std) cond in
  exists xin tsq,
    shape xin = shape x
    /\ (forall i j k, (i < n)%nat -> (j < a)%nat -> (k < b)%nat ->
          item xin [i; j; k] = item x [i; j; k] * c_in i)
    /\ shape tsq = [n]
    /\ (forall i, item tsq [i] = item t [i; 0%nat; 0%nat])
    /\ (forall i, c_in i = 1 / c_out i)
    /\ match apply (model self) params xin tsq train cond' with
       | Ok out =>
           exists r, score self x t cond params train = Ok r
                     /\ shape r = shape x
                     /\ forall i j k, (i < n)%nat -> (j < a)%nat -> (k < b)%nat ->
                          item r [i; j; k] = item out [i; j; k] / c_out i
       | Raise err => score self x t cond params train = Raise err
       end.
Proof.
  intros Hx Ht Hsg Hsc Hm. cbv zeta.
  unfold score.
  set (SG := sigma (diffusion self) t) in *.
  set (SC := scale (diffusion self) t) in *.
  set (std := train_data_std self).
  assert (B1 : broadcast_shapes (shape (square SG)) (shape (square (mul_scalar SC std)))
               = Some [n; 1%nat; 1%nat]).
  { simpl. rewrite Hsg, Hsc, Ht. apply broadcast_shapes_same. }
  assert (B2 : broadcast_shapes (shape (square SG))
                 (shape (mul_scalar (square SC) (std ^ 2)))
               = Some [n; 1%nat; 1%nat]).
  { simpl. rewrite Hsg, Hsc, Ht. apply broadcast_shapes_same. }
  unfold add. rewrite (binop_ok Rplus _ _ B1), (binop_ok Rplus _ _ B2).
  cbn [Py.bind].
  match goal with |- context [mul x ?s] => set (input_scale := s) end.
  assert (B3 : broadcast_shapes (shape x) (shape input_scale) = Some [n; a; b]).
  { simpl. rewrite Hx. apply broadcast_batch. }
  unfold mul. rewrite (binop_ok Rmult _ _ B3). cbn [Py.bind].
  unfold squeeze12. rewrite Ht. cbn [Py.bind].
  match goal with |- context [apply (model self) params ?xi ?ts train ?c] =>
    set (xin := xi); set (tsq := ts) end.
  exists xin, tsq.
  split; [simpl; congruence|].
  split.
  { intros i j k Hi Hj Hk. unfold xin. cbn [item].
    rewrite Hx, (project_batch Hi Hj Hk).
    unfold input_scale. cbn [shape item scalar_div sqrt map square mul_scalar].
    rewrite (project_time j k Hi).
    rewrite Hsg, Hsc, Ht, !(project_time 0 0 Hi). reflexivity. }
  split; [reflexivity|].
  split; [reflexivity|].
  split; [intro i; rewrite scales_agree; reflexivity|].
  destruct (apply (model self) params xin tsq train
              (option_map (fun c => div_scalar c std) cond)) as [out|err] eqn:A;
    [|reflexivity].
  cbn [Py.bind].
  pose proof (Hm _ _ _ _ A) as So.
  match goal with |- context [div out ?s] => set (den := s) end.
  assert (B4 : broadcast_shapes (shape out) (shape den) = Some [n; a; b]).
  { rewrite So. simpl. apply broadcast_batch. }
  unfold div. rewrite (binop_ok Rdiv _ _ B4).
  eexists. split; [reflexivity|]. split; [simpl; congruence|].
  intros i j k Hi Hj Hk. cbn [item].
  rewrite So. cbn [shape xin]. rewrite (project_batch Hi Hj Hk).
  unfold den. cbn [shape item sqrt map square mul_scalar].
  rewrite (project_time j k Hi).
  rewrite Hsg, Hsc, Ht, !(project_time 0 0 Hi). reflexivity.
Qed.

End ScoreFacts.

Section ScoreRuns.
Import Jnp PyTree Diffusion.
Open Scope R_scope.

(** C5 on the demo instance: a batch of shape (2, 3, 1) at time 1/2. *)
Lemma score_demo :
  exists r,
    score Demo.engine Demo.batch (full [2; 1; 1]%nat (1 / 2)) None Demo.weights false
    = Ok r
    /\ shape r = [2; 3; 1]%nat.
Proof.
  destruct (@score_scaling unit Demo.engine Demo.batch (full [2; 1; 1]%nat (1 / 2))
              None Demo.weights false 2 3 1 eq_refl eq_refl eq_refl eq_refl
              (fun xin tsq c out H =>
                 f_equal (fun r => match r with Ok o => shape o | Raise _ => shape xin end)
                         (eq_sym H)))
    as (xin & tsq & _ & _ & _ & _ & _ & H).
  cbn [apply model Demo.engine Demo.network] in H.
  destruct H as (r & Hr & Hs & _).
  exists r. split; [exact Hr|exact Hs].
Defined.

End ScoreRuns.

(** ** The time fractions of the loss *)

Section SamplingFacts.
Import Jnp Diffusion SamplingSpec.
Open Scope R_scope.

Lemma Zfloor_succ x : Zfloor (x + 1) = (Zfloor x + 1)%Z.
Proof.
  apply Zfloor_eq. rewrite plus_IZR. pose proof (Zfloor_bound x). simpl. lra.
Qed.

Lemma time_fractions_item u0 n i :
  item (time_fractions u0 n) [i]
  = frac (u0 + (if (n <=? 1)%nat then 0 else INR i / INR (n - 1))).
Proof.
  unfold time_fractions, remainder, scalar_add, linspace, Jnp.map, frac.
  cbn [item shape hd].
  destruct (n <=? 1)%nat.
  - rewrite Rdiv_1_r, Rmult_1_l. reflexivity.
  - replace (0 + INR i * ((1 - 0) / INR (n - 1))) with (INR i / INR (n - 1))
      by (unfold Rdiv; ring).
    rewrite Rdiv_1_r, Rmult_1_l. reflexivity.
Qed.

(** The last time fraction of a batch repeats the first one: the stride of
    [linspace] is 1/(n-1), so its last point is 1. *)
Lemma time_fractions_first_last u0 n :
  (2 <= n)%nat ->
  item (time_fractions u0 n) [(n - 1)%nat] = item (time_fractions u0 n) [0%nat].
Proof.
  intro H. rewrite !time_fractions_item.
  destruct (Nat.leb_spec n 1); [lia|].
  assert (P : 0 < INR (n - 1)) by (apply lt_0_INR; lia).
  replace (INR (n - 1) / INR (n - 1)) with 1 by (field; lra).
  replace (INR 0 / INR (n - 1)) with 0 by (simpl; unfold Rdiv; ring).
  unfold frac. rewrite Zfloor_succ, plus_IZR, Rplus_0_r. simpl. ring.
Qed.

(** C1, the code at the failing input: for a batch of two examples and the
    offset 3/4 both time fractions are 3/4, where the fixed-stride rule
    gives 3/4 and 1/4; sorted, the first fraction is 3/4 away from its rank
    position 0, which is more than 1/2. *)
Theorem time_fractions_batch_of_two :
  shape (time_fractions (3 / 4) 2) = [2%nat]
  /\ item (time_fractions (3 / 4) 2) [0%nat] = 3 / 4
  /\ item (time_fractions (3 / 4) 2) [1%nat] = 3 / 4
  /\ stride_rule (3 / 4) 2 0 = 3 / 4
  /\ stride_rule (3 / 4) 2 1 = 1 / 4
  /\ Rabs (item (time_fractions (3 / 4) 2) [0%nat] - INR 0 / INR 2) > 1 / INR 2.
Proof.
  assert (F0 : Zfloor (3 / 4) = 0%Z) by (apply Zfloor_eq; simpl; lra).
  assert (F1 : Zfloor (3 / 4 + 1) = 1%Z) by (apply Zfloor_eq; simpl; lra).
  assert (F2 : Zfloor (3 / 4 + 1 / 2) = 1%Z) by (apply Zfloor_eq; simpl; lra).
  assert (I0 : item (time_fractions (3 / 4) 2) [0%nat] = 3 / 4).
  { rewrite time_fractions_item. simpl.
    replace (3 / 4 + 0 / 1) with (3 / 4) by field.
    unfold frac. rewrite F0. simpl. ring. }
  split; [reflexivity|]. split; [exact I0|]. split.
  { rewrite time_fractions_item. simpl.
    replace (3 / 4 + 1 / 1) with (3 / 4 + 1) by field.
    unfold frac. rewrite F1. simpl. ring. }
  split.
  { unfold stride_rule, frac. simpl.
    replace (3 / 4 + 0 / (1 + 1)) with (3 / 4) by field.
    rewrite F0. simpl. ring. }
  split.
  { unfold stride_rule, frac. simpl.
    replace (3 / 4 + 1 / (1 + 1)) with (3 / 4 + 1 / 2) by field.
    rewrite F2. simpl. field. }
  rewrite I0. simpl.
  replace (3 / 4 - 0 / (1 + 1)) with (3 / 4) by field.
  rewrite Rabs_right; lra.
Qed.

End SamplingFacts.

(** ** More on the checkpoint callback *)

Section CheckpointPairs.
Import Pathlib PathSpec PyTree Diffusion Callbacks.
Open Scope string_scope.

Variable OptState : Type.

(** For every path the raw and the EMA checkpoint directory are two
    different directories. *)
Theorem raw_and_ema_directories_differ (filepath : string) :
  fspath (fst (get_checkpoint_directories filepath))
  <> fspath (snd (get_checkpoint_directories filepath)).
Proof. apply directories_distinct. Qed.

Lemma parent_snoc r l x : parent (mkPath r (l ++ [x])) = mkPath r l.
Proof. unfold parent. simpl. rewrite removelast_last. reflexivity. Qed.

Lemma name_snoc r l x : name (mkPath r (l ++ [x])) = x.
Proof. unfold name. simpl. apply last_last. Qed.

(** The EMA directory lies in the parent of the path under the name
    [stem + "_ema"].  The raw directory lies beside it under the name [stem];
    when the stem is empty or "." (a path without a name, or a name such as
    "..x"), the raw directory is the parent directory itself. *)
Theorem checkpoint_directories_are_siblings (filepath : string) :
  parent (snd (get_checkpoint_directories filepath)) = parent (Path filepath)
  /\ name (snd (get_checkpoint_directories filepath)) = stem (Path filepath) ++ "_ema"
  /\ if is_part (stem (Path filepath))
     then parent (fst (get_checkpoint_directories filepath)) = parent (Path filepath)
          /\ name (fst (get_checkpoint_directories filepath)) = stem (Path filepath)
     else fst (get_checkpoint_directories filepath) = parent (Path filepath).
Proof.
  rewrite checkpoint_directories_eq. simpl fst. simpl snd.
  split; [apply parent_snoc|]. split; [apply name_snoc|].
  destruct (is_part (stem (Path filepath))).
  - split; [apply parent_snoc|apply name_snoc].
  - rewrite app_nil_r. reflexivity.
Qed.

(** [_remove_checkpoint] when both directories are on disk and the EMA
    directory is not inside the raw one: the call returns, both directories
    are gone afterwards with all they contained, and neither the callback
    nor the loggers nor the links are touched. *)
Theorem remove_checkpoint_removes_pair
    (pl_module : JaxLightning OptState) (filepath : string) (st : state) :
  let raw := fst (get_checkpoint_directories filepath) in
  let ema := snd (get_checkpoint_directories filepath) in
  files (snd st) raw <> None -> files (snd st) ema <> None ->
  is_relative_to ema raw = false ->
  undeletable (snd st) raw = false -> undeletable (snd st) ema = false ->
  let out := _remove_checkpoint pl_module filepath st in
  fst out = Ok tt
  /\ (forall x, is_relative_to x raw = true \/ is_relative_to x ema = true ->
                files (snd (snd out)) x = None)
  /\ fst (snd out) = fst st
  /\ notified (snd (snd out)) = notified (snd st)
  /\ links (snd (snd out)) = links (snd st).
Proof.
  cbv zeta. intros F1 F2 R U1 U2.
  destruct st as [cb w]. cbn [fst snd] in *.
  rewrite remove_checkpoint_run. cbv zeta.
  destruct (files w (fst (get_checkpoint_directories filepath))); [|congruence].
  rewrite U1. cbn [set_files files].
  rewrite removed_outside by exact R.
  destruct (files w (snd (get_checkpoint_directories filepath))); [|congruence].
  rewrite U2. cbn [fst snd set_files files notified links].
  split; [reflexivity|]. split; [|repeat split; reflexivity].
  intros x [H|H]; unfold removed; rewrite H; [|reflexivity].
  destruct (is_relative_to x (snd (get_checkpoint_directories filepath)));
    reflexivity.
Qed.

(** [_remove_checkpoint] when the raw directory is not on disk: the call
    raises FileNotFoundError for the raw directory and changes nothing; the
    EMA directory is not looked at. *)
Theorem remove_checkpoint_missing_raw
    (pl_module : JaxLightning OptState) (filepath : string) (st : state) :
  files (snd st) (fst (get_checkpoint_directories filepath)) = None ->
  _remove_checkpoint pl_module filepath st
  = (Raise (FileNotFoundError (fspath (fst (get_checkpoint_directories filepath)))), st).
Proof.
  intro F. destruct st as [cb w]. cbn [fst snd] in F.
  rewrite remove_checkpoint_run. cbv zeta. rewrite F. reflexivity.
Qed.

(** [_remove_checkpoint] when the raw directory is on disk and the EMA
    directory is missing, or lies inside the raw directory (a path whose
    stem is empty or "."): the raw directory is removed first, with all it
    contains, then the call raises FileNotFoundError for the EMA directory,
    so the failed call has already changed the disk. *)
Theorem remove_checkpoint_missing_ema
    (pl_module : JaxLightning OptState) (filepath : string) (st : state) :
  let raw := fst (get_checkpoint_directories filepath) in
  let ema := snd (get_checkpoint_directories filepath) in
  files (snd st) raw <> None -> undeletable (snd st) raw = false ->
  files (snd st) ema = None \/ is_relative_to ema raw = true ->
  let out := _remove_checkpoint pl_module filepath st in
  fst out = Raise (FileNotFoundError (fspath ema))
  /\ (forall x, is_relative_to x raw = true -> files (snd (snd out)) x = None)
  /\ fst (snd out) = fst st.
Proof.
  cbv zeta. intros F1 U1 F2.
  destruct st as [cb w]. cbn [fst snd] in *.
  rewrite remove_checkpoint_run. cbv zeta.
  destruct (files w (fst (get_checkpoint_directories filepath))); [|congruence].
  rewrite U1. cbn [set_files files].
  assert (G : removed (files w) (fst (get_checkpoint_directories filepath))
                (snd (get_checkpoint_directories filepath)) = None).
  { unfold removed. destruct F2 as [F2|F2]; rewrite F2; [|reflexivity].
    destruct (is_relative_to _ _); reflexivity. }
  rewrite G. cbn [fst snd set_files files].
  split; [reflexivity|]. split; [|reflexivity].
  intros x H. apply removed_inside. exact H.
Qed.

End CheckpointPairs.

Section CheckpointFailures.
Import Pathlib PathSpec PyTree Diffusion Callbacks.
Open Scope string_scope.

Variable OptState : Type.

(** [_save_checkpoint] when the storage refuses a write: the call raises the
    storage's error, the callback records nothing and no logger is called.
    A refused raw write ends the call at once: the disk is as that failed
    save left it, and the EMA write is not attempted.  A refused EMA write
    comes after the raw write: the disk is as the failed EMA save left the
    disk on which the raw directory had already been written. *)
Theorem save_checkpoint_failed_write
    (pl_module : JaxLightning OptState) (filepath : string) (st : state)
    (p e : params_t) :
  params pl_module = Some p ->
  params_ema pl_module = Some e ->
  let raw := fst (get_checkpoint_directories filepath) in
  let ema := snd (get_checkpoint_directories filepath) in
  let w := snd st in
  unwritable w raw || unwritable w ema = true ->
  let out := _save_checkpoint pl_module filepath st in
  fst (snd out) = fst st
  /\ notified (snd (snd out)) = notified w
  /\ if unwritable w raw
     then fst out = Raise (refusal w raw)
          /\ files (snd (snd out)) = left_behind w raw (files w)
     else fst out = Raise (refusal w ema)
          /\ files (snd (snd out)) = left_behind w ema (written (files w) raw p).
Proof.
  intros Hp He. cbv zeta. intro U.
  destruct st as [cb w]. cbn [fst snd] in *.
  rewrite (save_checkpoint_run pl_module filepath cb w Hp He). cbv zeta.
  destruct (unwritable w (fst (get_checkpoint_directories filepath))).
  - cbn [fst snd set_files files notified]. repeat split; reflexivity.
  - cbn [orb] in U. rewrite U. cbn [fst snd set_files files notified].
    repeat split; reflexivity.
Qed.

(** [_save_checkpoint] for a module that was never set up: the call raises
    AttributeError for the missing parameter set and leaves the disk, the
    callback and the loggers as they were. *)
Theorem save_checkpoint_before_setup
    (pl_module : JaxLightning OptState) (filepath : string) (st : state) :
  params pl_module = None \/ params_ema pl_module = None ->
  _save_checkpoint pl_module filepath st
  = (Raise (AttributeError
              (match params pl_module with None => "params" | Some _ => "params_ema" end)),
     st).
Proof.
  intros [H|H]; unfold _save_checkpoint.
  - rewrite H. reflexivity.
  - rewrite H. destruct (params pl_module); reflexivity.
Qed.

(** Removing after saving, on a storage that refuses nothing.  The save
    succeeds.  When the EMA directory lies beside the raw one, the remove
    that follows returns and leaves neither directory.  When the stem of the
    path is empty or ".", the raw directory is the parent and holds the EMA
    directory: the remove deletes the raw directory and then raises
    FileNotFoundError for the EMA directory.  Either way the raw directory
    is gone, the callback still names the path as its last checkpoint, and a
    second remove raises FileNotFoundError for the raw directory and changes
    nothing. *)
Theorem save_then_remove
    (pl_module : JaxLightning OptState) (filepath : string) (st : state)
    (p e : params_t) :
  params pl_module = Some p ->
  params_ema pl_module = Some e ->
  let raw := fst (get_checkpoint_directories filepath) in
  let ema := snd (get_checkpoint_directories filepath) in
  unwritable (snd st) raw = false -> unwritable (snd st) ema = false ->
  undeletable (snd st) raw = false -> undeletable (snd st) ema = false ->
  let saved := _save_checkpoint pl_module filepath st in
  let gone := _remove_checkpoint pl_module filepath (snd saved) in
  let again := _remove_checkpoint pl_module filepath (snd gone) in
  fst saved = Ok tt
  /\ (if is_relative_to ema raw
      then fst gone = Raise (FileNotFoundError (fspath ema))
      else fst gone = Ok tt)
  /\ files (snd (snd gone)) raw = None
  /\ files (snd (snd gone)) ema = None
  /\ _last_checkpoint_saved (fst (snd gone)) = filepath
  /\ again = (Raise (FileNotFoundError (fspath raw)), snd gone).
Proof.
  intros Hp He. cbv zeta. intros U1 U2 D1 D2.
  pose proof (raw_outside_ema filepath) as Hd.
  destruct st as [cb w]. cbn [fst snd] in *.
  rewrite (save_checkpoint_run pl_module filepath cb w Hp He). cbv zeta.
  rewrite U1, U2. cbn [fst snd].
  set (raw := fst (get_checkpoint_directories filepath)) in *.
  set (ema := snd (get_checkpoint_directories filepath)) in *.
  match goal with |- context [_remove_checkpoint _ _ (?c, ?x)] =>
    set (cb1 := c); set (w1 := x) end.
  assert (F1 : files w1 raw = Some (Checkpoint p)).
  { unfold w1. cbn [set_notified set_files files].
    apply written_keeps; [exact Hd|apply written_at]. }
  assert (F2 : files w1 ema = Some (Checkpoint e)).
  { unfold w1. cbn [set_notified set_files files]. apply written_at. }
  rewrite (remove_checkpoint_run pl_module filepath cb1 w1). cbv zeta.
  fold raw. fold ema. rewrite F1.
  change (undeletable w1) with (undeletable w). rewrite D1.
  cbn [set_files files].
  destruct (is_relative_to ema raw) eqn:R.
  - rewrite (@removed_inside (files w1) raw ema R).
    cbn [fst snd]. split; [reflexivity|]. split; [reflexivity|].
    assert (G : files (set_files w1 (removed (files w1) raw)) raw = None)
      by (cbn [set_files files]; apply removed_inside, is_relative_to_refl).
    split; [exact G|].
    split; [cbn [set_files files]; apply removed_inside; exact R|].
    split; [reflexivity|].
    rewrite (remove_checkpoint_run pl_module filepath cb1
               (set_files w1 (removed (files w1) raw))).
    cbv zeta. fold raw. rewrite G. reflexivity.
  - rewrite (@removed_outside (files w1) raw ema R), F2, D2. cbn [fst snd].
    split; [reflexivity|]. split; [reflexivity|].
    split; [cbn [set_files files]; rewrite removed_outside by exact Hd;
            apply removed_inside, is_relative_to_refl|].
    split; [cbn [set_files files]; apply removed_inside, is_relative_to_refl|].
    split; [reflexivity|].
    match goal with |- _remove_checkpoint _ _ (?c, ?x) = _ =>
      rewrite (remove_checkpoint_run pl_module filepath c x) end.
    cbv zeta. fold raw. cbn [set_files files].
    rewrite removed_outside by exact Hd.
    rewrite (@removed_inside (files w1) raw raw (is_relative_to_refl raw)).
    reflexivity.
Qed.

(** [_link_checkpoint] touches neither the callback nor the loggers.  It
    hands the raw directories of the two paths to the parent class; when
    that link raises, the error is passed on and the EMA link is not
    attempted; otherwise it hands over the EMA directories, and returns or
    raises as that second link does. *)
Theorem link_checkpoint_only_links
    (pl_module : JaxLightning OptState) (filepath linkpath : string) (st : state) :
  let raw := fst (get_checkpoint_directories filepath) in
  let ema := snd (get_checkpoint_directories filepath) in
  let link_raw := fst (get_checkpoint_directories linkpath) in
  let link_ema := snd (get_checkpoint_directories linkpath) in
  let out := _link_checkpoint pl_module filepath linkpath st in
  fst (snd out) = fst st
  /\ notified (snd (snd out)) = notified (snd st)
  /\ match link_error (snd st) raw link_raw with
     | Some err =>
         fst out = Raise err
         /\ links (snd (snd out))
            = (links (snd st) ++ [(fspath raw, fspath link_raw)])%list
     | None =>
         fst out = match link_error (snd st) ema link_ema with
                   | Some err => Raise err
                   | None => Ok tt
                   end
         /\ links (snd (snd out))
            = (links (snd st) ++ [(fspath raw, fspath link_raw);
                                  (fspath ema, fspath link_ema)])%list
     end.
Proof.
  cbv zeta. destruct st as [cb w]. cbn [fst snd].
  rewrite link_run. cbv zeta.
  destruct (link_error w (fst (get_checkpoint_directories filepath))
              (fst (get_checkpoint_directories linkpath))).
  - cbn [fst snd set_links set_files notified links]. repeat split; reflexivity.
  - destruct (link_error w (snd (get_checkpoint_directories filepath))
                (snd (get_checkpoint_directories linkpath)));
      cbn [fst snd set_links set_files notified links]; rewrite <- app_assoc;
      repeat split; reflexivity.
Qed.

End CheckpointFailures.

Section CheckpointPairRuns.
Import Pathlib PathSpec PyTree Diffusion Callbacks.
Open Scope string_scope.

(** Removing "/a/b/ckpt.tmp" when both directories are on disk. *)
Lemma remove_pair_demo :
  fst (_remove_checkpoint Demo.engine "/a/b/ckpt.tmp" (Demo.callback, DemoDisks.pair))
  = Ok tt
  /\ files (snd (snd (_remove_checkpoint Demo.engine "/a/b/ckpt.tmp"
                        (Demo.callback, DemoDisks.pair)))) (Path "/a/b/ckpt") = None
  /\ files (snd (snd (_remove_checkpoint Demo.engine "/a/b/ckpt.tmp"
                        (Demo.callback, DemoDisks.pair)))) (Path "/a/b/ckpt_ema") = None
  /\ files (snd (snd (_remove_checkpoint Demo.engine "/a/b/ckpt.tmp"
                        (Demo.callback, DemoDisks.pair)))) (Path "/a/b/ckpt/sub") = None.
Proof.
  assert (H1 : files DemoDisks.pair (Path "/a/b/ckpt") <> None) by discriminate.
  assert (H2 : files DemoDisks.pair (Path "/a/b/ckpt_ema") <> None) by discriminate.
  destruct (@remove_checkpoint_removes_pair unit Demo.engine "/a/b/ckpt.tmp"
              (Demo.callback, DemoDisks.pair) H1 H2 eq_refl eq_refl eq_refl)
    as (R1 & R2 & _).
  split; [exact R1|].
  split; [apply R2; left; reflexivity|].
  split; [apply R2; right; reflexivity|apply R2; left; reflexivity].
Defined.

(** Removing "/a/b/ckpt.tmp" from a disk that holds the root only. *)
Lemma remove_missing_raw_demo :
  _remove_checkpoint Demo.engine "/a/b/ckpt.tmp" (Demo.callback, DemoDisks.empty)
  = (Raise (FileNotFoundError "/a/b/ckpt"), (Demo.callback, DemoDisks.empty)).
Proof.
  exact (@remove_checkpoint_missing_raw unit Demo.engine "/a/b/ckpt.tmp"
           (Demo.callback, DemoDisks.empty) eq_refl).
Defined.

(** Removing "/a/b/ckpt.tmp" when only the raw directory is on disk, and
    removing "/a/b/..x", whose raw directory "/a/b" holds its EMA directory
    "/a/b/._ema". *)
Lemma remove_missing_ema_demo :
  (fst (_remove_checkpoint Demo.engine "/a/b/ckpt.tmp" (Demo.callback, Demo.disk))
   = Raise (FileNotFoundError "/a/b/ckpt_ema")
   /\ files (snd (snd (_remove_checkpoint Demo.engine "/a/b/ckpt.tmp"
                         (Demo.callback, Demo.disk)))) (Path "/a/b/ckpt") = None)
  /\ (files DemoDisks.nested (Path "/a/b/._ema") = Some (Checkpoint Demo.shadow)
      /\ fst (_remove_checkpoint Demo.engine "/a/b/..x" (Demo.callback, DemoDisks.nested))
         = Raise (FileNotFoundError "/a/b/._ema")
      /\ files (snd (snd (_remove_checkpoint Demo.engine "/a/b/..x"
                            (Demo.callback, DemoDisks.nested)))) (Path "/a/b") = None
      /\ files (snd (snd (_remove_checkpoint Demo.engine "/a/b/..x"
                            (Demo.callback, DemoDisks.nested)))) (Path "/a/b/._ema")
         = None).
Proof.
  split.
  - assert (H1 : files Demo.disk (Path "/a/b/ckpt") <> None) by discriminate.
    destruct (@remove_checkpoint_missing_ema unit Demo.engine "/a/b/ckpt.tmp"
                (Demo.callback, Demo.disk) H1 eq_refl (or_introl eq_refl))
      as (R1 & R2 & _).
    split; [exact R1|apply R2; reflexivity].
  - assert (H1 : files DemoDisks.nested (Path "/a/b") <> None) by discriminate.
    destruct (@remove_checkpoint_missing_ema unit Demo.engine "/a/b/..x"
                (Demo.callback, DemoDisks.nested) H1 eq_refl (or_intror eq_refl))
      as (R1 & R2 & _).
    split; [reflexivity|]. split; [exact R1|].
    split; apply R2; reflexivity.
Defined.

(** Saving "/a/b/ckpt.tmp" when the storage refuses the EMA directory: the
    raw directory is written, nothing is recorded, and the temporary
    directory of the refused save stays on disk. *)
Lemma save_failed_write_demo :
  fst (_save_checkpoint Demo.engine "/a/b/ckpt.tmp" (Demo.callback, DemoDisks.ema_refused))
  = Raise (ValueError "/a/b/ckpt_ema")
  /\ files (snd (snd (_save_checkpoint Demo.engine "/a/b/ckpt.tmp"
                        (Demo.callback, DemoDisks.ema_refused)))) (Path "/a/b/ckpt")
     = Some (Checkpoint Demo.weights)
  /\ files (snd (snd (_save_checkpoint Demo.engine "/a/b/ckpt.tmp"
                        (Demo.callback, DemoDisks.ema_refused)))) (Path "/a/b/ckpt_ema.tmp")
     = Some Directory
  /\ _last_checkpoint_saved
       (fst (snd (_save_checkpoint Demo.engine "/a/b/ckpt.tmp"
                    (Demo.callback, DemoDisks.ema_refused)))) = "".
Proof.
  pose proof (@save_checkpoint_failed_write unit Demo.engine "/a/b/ckpt.tmp"
                (Demo.callback, DemoDisks.ema_refused) Demo.weights Demo.shadow
                eq_refl eq_refl eq_refl) as H.
  cbv zeta in H. destruct H as (C & _ & H).
  change (unwritable (snd (Demo.callback, DemoDisks.ema_refused))
            (fst (get_checkpoint_directories "/a/b/ckpt.tmp"))) with false in H.
  cbv iota in H. destruct H as (R1 & R2).
  split; [exact R1|]. rewrite R2, C. repeat split; reflexivity.
Defined.

(** Saving from an engine that was never set up. *)
Lemma save_before_setup_demo :
  _save_checkpoint DemoEngines.fresh "/a/b/ckpt.tmp" (Demo.callback, Demo.disk)
  = (Raise (AttributeError "params"), (Demo.callback, Demo.disk)).
Proof.
  exact (@save_checkpoint_before_setup unit DemoEngines.fresh "/a/b/ckpt.tmp"
           (Demo.callback, Demo.disk) (or_introl eq_refl)).
Defined.

(** Saving then removing "/a/b/ckpt.tmp", whose directories lie side by
    side, and "/a/b/..x", whose raw directory "/a/b" holds the EMA one. *)
Lemma save_then_remove_demo :
  (fst (_remove_checkpoint Demo.engine "/a/b/ckpt.tmp"
          (snd (_save_checkpoint Demo.engine "/a/b/ckpt.tmp"
                  (Demo.callback, DemoDisks.empty)))) = Ok tt
   /\ fst (_remove_checkpoint Demo.engine "/a/b/ckpt.tmp"
             (snd (_remove_checkpoint Demo.engine "/a/b/ckpt.tmp"
                     (snd (_save_checkpoint Demo.engine "/a/b/ckpt.tmp"
                             (Demo.callback, DemoDisks.empty))))))
      = Raise (FileNotFoundError "/a/b/ckpt"))
  /\ (fst (_save_checkpoint Demo.engine "/a/b/..x" (Demo.callback, DemoDisks.empty))
      = Ok tt
      /\ fst (_remove_checkpoint Demo.engine "/a/b/..x"
                (snd (_save_checkpoint Demo.engine "/a/b/..x"
                        (Demo.callback, DemoDisks.empty))))
         = Raise (FileNotFoundError "/a/b/._ema")
      /\ files (snd (snd (_remove_checkpoint Demo.engine "/a/b/..x"
                            (snd (_save_checkpoint Demo.engine "/a/b/..x"
                                    (Demo.callback, DemoDisks.empty))))))
           (Path "/a/b") = None).
Proof.
  split.
  - destruct (@save_then_remove unit Demo.engine "/a/b/ckpt.tmp"
                (Demo.callback, DemoDisks.empty) Demo.weights Demo.shadow
                eq_refl eq_refl eq_refl eq_refl eq_refl eq_refl)
      as (_ & R1 & _ & _ & _ & R2).
    split; [exact R1|]. rewrite R2. reflexivity.
  - destruct (@save_then_remove unit Demo.engine "/a/b/..x"
                (Demo.callback, DemoDisks.empty) Demo.weights Demo.shadow
                eq_refl eq_refl eq_refl eq_refl eq_refl eq_refl)
      as (R0 & R1 & R2 & _).
    split; [exact R0|]. split; [exact R1|exact R2].
Defined.

(** Linking "/a/b/ckpt.tmp" to "/c/last.ckpt" when the parent class cannot
    make links in "/c": the first link raises, the second is not tried. *)
Lemma link_checkpoint_demo :
  fst (_link_checkpoint Demo.engine "/a/b/ckpt.tmp" "/c/last.ckpt"
         (Demo.callback, DemoDisks.nested))
  = Raise (FileNotFoundError "/c/last")
  /\ links (snd (snd (_link_checkpoint Demo.engine "/a/b/ckpt.tmp" "/c/last.ckpt"
                        (Demo.callback, DemoDisks.nested))))
     = [("/a/b/ckpt", "/c/last")].
Proof.
  pose proof (@link_checkpoint_only_links unit Demo.engine "/a/b/ckpt.tmp" "/c/last.ckpt"
                (Demo.callback, DemoDisks.nested)) as H.
  cbv zeta in H. destruct H as (_ & _ & H).
  exact H.
Defined.

End CheckpointPairRuns.

(** ** More on the loss and the moving average *)

Section LossFacts.
Import Jnp PyTree Diffusion SamplingSpec LossSpec.
Open Scope R_scope.

Variable OptState : Type.
Variable env : Env OptState.

Lemma frac_bounds x : 0 <= frac x < 1.
Proof. unfold frac. pose proof (Zfloor_bound x). lra. Qed.

Lemma time_fractions_bounds u0 n i : 0 <= item (time_fractions u0 n) [i] < 1.
Proof. rewrite time_fractions_item. apply frac_bounds. Qed.

(** The diffusion times drawn by [loss] for a batch of [n] examples form an
    array of shape (n, 1, 1) whose entries all lie in [tmin, tmax), whatever
    the key; a batch without axes is refused with IndexError. *)
Theorem loss_times_in_range (self : JaxLightning OptState) key x_data :
  tmin (diffusion self) < tmax (diffusion self) ->
  match shape x_data with
  | [] => loss_draws env self key x_data = Raise IndexError
  | n :: _ =>
      exists t xt,
        loss_draws env self key x_data = Ok (t, xt)
        /\ shape t = [n; 1%nat; 1%nat]
        /\ forall i j k,
             tmin (diffusion self) <= item t [i; j; k] < tmax (diffusion self)
  end.
Proof.
  intro H. unfold loss_draws.
  destruct (split env key) as [k1 key_time].
  unfold shape0. destruct (shape x_data) as [|n rest]; [reflexivity|].
  cbn [Py.bind]. unfold expand12. cbn [shape add_scalar mul_scalar Jnp.map].
  unfold time_fractions at 1, remainder at 1, scalar_add at 1, linspace at 1.
  cbn [shape Jnp.map Py.bind].
  destruct (split env k1) as [k2 key_noise].
  eexists. eexists. split; [reflexivity|]. split; [reflexivity|].
  intros i j k. cbn [item]. unfold add_scalar, mul_scalar, Jnp.map. cbn [item].
  pose proof (time_fractions_bounds (uniform env key_time) n i) as B.
  set (u := item (time_fractions (uniform env key_time) n) [i]) in *.
  nra.
Qed.

Lemma sum_nonneg (f : list nat -> R) l :
  (forall idx, 0 <= f idx) -> 0 <= fold_right Rplus 0 (List.map f l).
Proof.
  intro H. induction l as [|x l IH]; simpl; [lra|].
  pose proof (H x). lra.
Qed.

Lemma mean_nonneg a :
  size (shape a) <> 0%nat -> (forall idx, 0 <= item a idx) -> 0 <= mean a.
Proof.
  intros N H. unfold mean, sum_all, Rdiv. apply Rmult_le_pos.
  - apply sum_nonneg. exact H.
  - left. apply Rinv_0_lt_compat. apply lt_0_INR. lia.
Qed.

Lemma binop_item f a b c :
  binop f a b = Ok c ->
  forall idx, item c idx
              = f (item a (project (shape a) idx)) (item b (project (shape b) idx)).
Proof.
  unfold binop. destruct (broadcast_shapes (shape a) (shape b)); [|discriminate].
  intro H. inversion H. reflexivity.
Qed.

(** [loss] is the mean of an array of products of two squares, none of them
    negative, and reports it once more as the diagnostic "flow_loss"; when
    that array has elements, which excludes the empty batch, the loss is
    not negative. *)
Theorem loss_is_nonnegative (self : JaxLightning OptState) key x_data cond params w :
  loss_terms env self key x_data cond params = Ok w ->
  size (shape w) <> 0%nat ->
  loss env self key x_data cond params
  = Ok (mean w, [("flow_loss"%string, mean w)])
  /\ (forall idx, 0 <= item w idx)
  /\ 0 <= mean w.
Proof.
  unfold loss_terms, loss. intros H N.
  destruct (loss_draws env self key x_data) as [[t xt]|]; [|discriminate].
  cbn [Py.bind fst snd] in *.
  destruct (score self xt t cond params true) as [s|]; [|discriminate].
  cbn [Py.bind] in *.
  destruct (sub s (noise_score (diffusion self) xt x_data t)) as [err|]; [|discriminate].
  cbn [Py.bind] in *. rewrite H. cbn [Py.bind].
  split; [reflexivity|].
  assert (P : forall idx, 0 <= item w idx).
  { intro idx. unfold mul in H. rewrite (binop_item _ _ _ H idx).
    cbn [item square Jnp.map].
    apply Rmult_le_pos; apply pow2_ge_0. }
  split; [exact P|]. apply mean_nonneg; assumption.
Qed.

(** With [ema_ts] at least 1 the moving average moves towards the new
    parameters and never past them: on leaves of one shape every element of
    the new average lies between the old average and the new parameter, and
    an element that already agrees stays where it is. *)
Theorem ema_update_no_overshoot (self : JaxLightning OptState) p e v :
  shape p = shape e ->
  1 <= ema_ts self ->
  ema_update self p e = Ok v ->
  forall idx, valid_index (shape e) idx ->
    Rmin (item e idx) (item p idx) <= item v idx <= Rmax (item e idx) (item p idx)
    /\ Rabs (item p idx - item v idx) <= Rabs (item p idx - item e idx)
    /\ (item p idx = item e idx -> item v idx = item e idx).
Proof.
  intros S T H idx V.
  destruct (ema_update_same_shape self p e S) as (v' & Hv & _ & Iv).
  rewrite Hv in H. inversion H; subst v'. rewrite (Iv idx V).
  set (a := item e idx). set (b := item p idx). set (ts := ema_ts self) in *.
  assert (Q : exists q, (b - a) / ts = q /\ q * ts = b - a).
  { exists ((b - a) / ts). split; [reflexivity|]. field. lra. }
  destruct Q as (q & -> & Q).
  split; [|split].
  - unfold Rmin, Rmax. destruct (Rle_dec a b); split; nra.
  - unfold Rabs. destruct (Rcase_abs (b - (a + q))); destruct (Rcase_abs (b - a)); nra.
  - intro E. assert (q = 0) by nra. lra.
Qed.

End LossFacts.

Section LossRuns.
Import Jnp PyTree Diffusion SamplingSpec LossSpec.
Open Scope R_scope.

(** The times of the demo batch lie in [0, 1). *)
Lemma loss_times_demo :
  exists t xt,
    loss_draws Demo.libs Demo.engine (0%N, 0%N) Demo.batch = Ok (t, xt)
    /\ shape t = [2; 1; 1]%nat
    /\ 0 <= item t [1; 0; 0]%nat < 1.
Proof.
  assert (H : tmin (diffusion Demo.engine) < tmax (diffusion Demo.engine))
    by (simpl; lra).
  pose proof (@loss_times_in_range unit Demo.libs Demo.engine (0%N, 0%N) Demo.batch H)
    as R.
  cbn [shape Demo.batch full] in R.
  destruct R as (t & xt & R1 & R2 & R3).
  exists t, xt. split; [exact R1|]. split; [exact R2|]. apply (R3 1%nat 0%nat 0%nat).
Defined.

(** In a batch of three the third time fraction is the first one again. *)
Lemma time_fractions_first_last_demo :
  item (time_fractions (1 / 4) 3) [2%nat] = item (time_fractions (1 / 4) 3) [0%nat].
Proof.
  assert (H : (2 <= 3)%nat) by lia.
  exact (@time_fractions_first_last (1 / 4) 3 H).
Defined.

(** The loss of the demo batch is not negative. *)
Lemma loss_nonnegative_demo :
  exists w,
    loss_terms Demo.libs Demo.engine (0%N, 0%N) Demo.batch None Demo.weights = Ok w
    /\ size (shape w) = 6%nat
    /\ loss Demo.libs Demo.engine (0%N, 0%N) Demo.batch None Demo.weights
       = Ok (mean w, [("flow_loss"%string, mean w)])
    /\ 0 <= mean w.
Proof.
  assert (K : Py.fmap (fun w => size (shape w))
                (loss_terms Demo.libs Demo.engine (0%N, 0%N) Demo.batch None
                   Demo.weights)
              = Ok 6%nat) by (vm_compute; reflexivity).
  destruct (loss_terms Demo.libs Demo.engine (0%N, 0%N) Demo.batch None Demo.weights)
    as [w|] eqn:E; [|discriminate K].
  assert (S6 : size (shape w) = 6%nat) by (inversion K; reflexivity).
  assert (N : size (shape w) <> 0%nat) by (rewrite S6; discriminate).
  destruct (@loss_is_nonnegative unit Demo.libs Demo.engine (0%N, 0%N) Demo.batch None
              Demo.weights w E N) as (L & _ & P).
  exists w. split; [reflexivity|]. split; [exact S6|]. split; [exact L|exact P].
Defined.

(** On the demo engine, whose [ema_ts] is 2, a bias at 0 and an average at 1
    give a new average between 0 and 1. *)
Lemma ema_no_overshoot_demo :
  exists v,
    ema_update Demo.engine (full [3%nat] 0) (full [3%nat] 1) = Ok v
    /\ Rmin 1 0 <= item v [0%nat] <= Rmax 1 0.
Proof.
  assert (T : 1 <= ema_ts Demo.engine) by (simpl; lra).
  eexists. split; [reflexivity|].
  assert (V : valid_index (shape (full [3%nat] 1)) [0%nat])
    by (repeat constructor).
  exact (proj1 (@ema_update_no_overshoot unit Demo.engine (full [3%nat] 0)
                  (full [3%nat] 1) _ eq_refl T eq_refl [0%nat] V)).
Defined.

End LossRuns.

(** ** The order of the lifecycle hooks *)

Section LifecycleFacts.
Import Jnp PyTree Diffusion.
Open Scope string_scope.

Variable OptState : Type.
Variable env : Env OptState.

Lemma init_inv cfg0 key0 dl std cf mdl pr pc dif tr (self : JaxLightning OptState) :
  __init__ OptState cfg0 key0 dl std cf mdl pr pc dif tr = Ok self ->
  params self = None /\ params_ema self = None
  /\ optimizer self = None /\ opt_state self = None
  /\ exists first rest, train dl = first :: rest /\ x_shape self = shape first.
Proof.
  unfold __init__. intro H.
  destruct (train dl) as [|first rest]; [discriminate|]. cbn [Py.bind] in H.
  apply bind_ok in H. destruct H as (ts & _ & H). inversion H; subst self.
  simpl. repeat split. exists first, rest. split; reflexivity.
Qed.

(** An engine as [__init__] returns it holds no parameters and no optimizer:
    [training_step] and [configure_optimizers] raise AttributeError for
    [params], [sample] and [compute_nll] without parameters raise it for
    [params_ema]; after [setup('fit')] alone [training_step] still raises
    AttributeError, now for [opt_state], while [configure_optimizers]
    succeeds. *)
Theorem fresh_engine_needs_setup cfg0 key0 dl std cf mdl pr pc dif tr
    (self : JaxLightning OptState) :
  __init__ OptState cfg0 key0 dl std cf mdl pr pc dif tr = Ok self ->
  (forall batch i, training_step env self batch i = Raise (AttributeError "params"))
  /\ configure_optimizers env self = Raise (AttributeError "params")
  /\ (forall key tmax cond shp keep,
        sample env self key tmax cond shp None keep
        = Raise (AttributeError "params_ema"))
  /\ (forall key tmax x,
        compute_nll env self key tmax x None = Raise (AttributeError "params_ema"))
  /\ (forall self1 batch i,
        setup env self "fit" = Ok self1 ->
        training_step env self1 batch i = Raise (AttributeError "opt_state")
        /\ exists self2 p,
             configure_optimizers env self1 = Ok self2
             /\ params self2 = Some p /\ params_ema self2 = Some p
             /\ optimizer self2 = Some (adam env (learning_rate (cfg self)))
             /\ opt_state self2
                = Some (opt_init (adam env (learning_rate (cfg self))) p)).
Proof.
  intro H. destruct (init_inv _ _ _ _ _ _ _ _ _ _ H) as (P & E & O & S & _).
  split.
  { intros batch i. unfold training_step.
    destruct (split env (key self)) as [k kt].
    change (params (set_key self k)) with (params self). rewrite P. reflexivity. }
  split; [unfold configure_optimizers; rewrite P; reflexivity|].
  split; [intros; unfold sample; rewrite E; reflexivity|].
  split; [intros; unfold compute_nll; rewrite E; reflexivity|].
  intros self1 batch i H1. unfold setup in H1. simpl in H1.
  destruct (split env (key self)) as [k kt].
  apply bind_ok in H1. destruct H1 as (p & _ & H1). inversion H1; subst self1.
  split.
  - unfold training_step. cbn [key set_params set_key].
    destruct (split env k) as [k' kt']. cbn [params params_ema opt_state set_key set_params].
    rewrite S. reflexivity.
  - eexists. exists p. unfold configure_optimizers.
    cbn [params set_params Py.getattr Py.bind]. split; [reflexivity|].
    repeat split.
Qed.

(** [setup('fit')] raises IndexError exactly when the batch shape kept by
    the engine is empty.  Otherwise it calls the model's [init] with the
    second half of the split key, a batch of ones of the kept shape, times of
    ones of shape (x_shape[0],), train=False and [cond_fn] of the batch of
    ones; both parameter sets become its result, the key becomes the first
    half, and the optimizer state is left alone. *)
Theorem setup_fit_probe (self : JaxLightning OptState) :
  match x_shape self with
  | [] => setup env self "fit" = Raise IndexError
  | n :: _ =>
      exists self1,
        setup env self "fit" = Ok self1
        /\ params self1
           = Some (init (model self) (snd (split env (key self)))
                     (full (x_shape self) 1) (full [n] 1) false
                     (cond_fn self (full (x_shape self) 1)))
        /\ params_ema self1 = params self1
        /\ key self1 = fst (split env (key self))
        /\ opt_state self1 = opt_state self
        /\ optimizer self1 = optimizer self
  end.
Proof.
  unfold setup. simpl String.eqb. cbv iota.
  destruct (split env (key self)) as [k kt]. unfold model_init.
  change (x_shape (set_key self k)) with (x_shape self).
  destruct (x_shape self) as [|n rest]; [reflexivity|].
  eexists. split; [reflexivity|]. repeat split.
Qed.

Lemma loss_monitors (self : JaxLightning OptState) key x_data cond params l m :
  loss env self key x_data cond params = Ok (l, m) -> m = [("flow_loss", l)].
Proof.
  unfold loss. intro H.
  apply bind_ok in H. destruct H as ([t xt] & _ & H).
  apply bind_ok in H. destruct H as (s & _ & H).
  apply bind_ok in H. destruct H as (err & _ & H).
  apply bind_ok in H. destruct H as (w & _ & H).
  inversion H. reflexivity.
Qed.

(** A successful [training_step] replaces the key by the first half of its
    split, both parameter sets and the optimizer state, and counts one global
    step; the configuration, the model, the diffusion process, the optimizer,
    the batch shape and the other attributes of the trainer are unchanged.
    Both diagnostics dicts it returns hold the one entry "flow_loss", equal to
    the loss they belong to. *)
Theorem training_step_frame (self : JaxLightning OptState) batch batch_idx self' out :
  training_step env self batch batch_idx = Ok (self', out) ->
  key self' = fst (split env (key self))
  /\ global_step (trainer self') = S (global_step (trainer self))
  /\ sanity_checking (trainer self') = sanity_checking (trainer self)
  /\ callback_metrics (trainer self') = callback_metrics (trainer self)
  /\ is_global_zero (trainer self') = is_global_zero (trainer self)
  /\ loggers (trainer self') = loggers (trainer self)
  /\ cfg self' = cfg self /\ model self' = model self
  /\ diffusion self' = diffusion self /\ optimizer self' = optimizer self
  /\ x_shape self' = x_shape self /\ train_data_std self' = train_data_std self
  /\ out_monitors out = [("flow_loss", out_loss out)]
  /\ out_monitors_ema out = [("flow_loss", out_loss_ema out)].
Proof.
  intro H. unfold training_step in H.
  destruct (split env (key self)) as [k kt].
  apply bind_ok in H. destruct H as (p & _ & H).
  apply bind_ok in H. destruct H as (e & _ & H).
  apply bind_ok in H. destruct H as (s & _ & H).
  apply bind_ok in H. destruct H as ([[[[l m] p'] e'] s'] & Hstep & H).
  apply bind_ok in H. destruct H as ([le me] & Hl & H).
  inversion H; subst self' out. clear H. simpl.
  destruct (step_inv _ _ _ _ _ _ _ _ Hstep) as (o & _ & L & _).
  rewrite (loss_monitors _ _ _ _ _ L), (loss_monitors _ _ _ _ _ Hl).
  repeat split.
Qed.

End LifecycleFacts.

Section PredictFacts.
Import Jnp PyTree Diffusion.
Open Scope string_scope.

Variable OptState : Type.
Variable env : Env OptState.

Lemma fmap_snd_bind A S (r : result A) (x y : S) :
  Py.fmap snd (Py.bind r (fun a => Ok (x, a)))
  = Py.fmap snd (Py.bind r (fun a => Ok (y, a))).
Proof. destruct r; reflexivity. Qed.

Lemma fmap_snd_bind2 A B S (r : result A) (q : A -> result B) (x y : S) :
  Py.fmap snd (Py.bind r (fun a => Py.bind (q a) (fun b => Ok (x, b))))
  = Py.fmap snd (Py.bind r (fun a => Py.bind (q a) (fun b => Ok (y, b)))).
Proof. destruct r as [a|]; [|reflexivity]. simpl. destruct (q a); reflexivity. Qed.

(** [predict_step] never looks at the raw parameters.  In the plain mode it
    is [sample] with the averaged parameters under the second half of the
    split key, and raises AttributeError for [params_ema] without them.  In
    the event-conditioned mode it first reads the constraint, raising
    AttributeError when no constraint object was given, whether or not there
    are averaged parameters; otherwise it integrates [event_scores] of a
    score callback with the constraint and [reg = 1e-3].  That callback
    reads [params_ema] when it is called: with averaged parameters it is the
    callback of [sample], without them it raises AttributeError for
    [params_ema] at a time that has a shape. *)
Theorem predict_step_uses_ema (self : JaxLightning OptState) (batch : list nat)
    (batch_idx : nat) :
  (forall raw,
     Py.fmap snd (predict_step env (set_params self raw (params_ema self))
                    batch batch_idx)
     = Py.fmap snd (predict_step env self batch batch_idx))
  /\ (predict_sample_event_conditioned self = false ->
      predict_step env self batch batch_idx
      = match params_ema self with
        | None => Raise (AttributeError "params_ema")
        | Some e =>
            Py.bind
              (sde_sample env (diffusion self)
                 (score_closure self (first_axis batch) None e)
                 (snd (split env (key self))) batch
                 (time_step_count_sampling (cfg self)) false)
              (fun r => Ok (set_key self (fst (split env (key self))), r))
        end)
  /\ (predict_sample_event_conditioned self = true ->
      match predict_event_constraint self with
      | None => predict_step env self batch batch_idx
                = Raise (AttributeError "constraint")
      | Some o =>
          exists score : score_fn_t,
            predict_step env self batch batch_idx
            = Py.bind
                (sde_sample env (diffusion self)
                   (event_scores env (diffusion self) score (constraint o) (1 / 1000))
                   (snd (split env (key self))) batch
                   (time_step_count_sampling (cfg self)) false)
                (fun r => Ok (set_key self (fst (split env (key self))), r))
            /\ match params_ema self with
               | Some e =>
                   forall x t,
                     score x t = score_closure self (first_axis batch) None e x t
               | None =>
                   forall x a d ds,
                     shape a = d :: ds ->
                     score x (TimeArray a) = Raise (AttributeError "params_ema")
               end
      end).
Proof.
  split; [|split].
  - intro raw. unfold predict_step.
    change (key (set_params self raw (params_ema self))) with (key self).
    destruct (split env (key self)) as [k kp].
    change (predict_sample_event_conditioned
              (set_key (set_params self raw (params_ema self)) k))
      with (predict_sample_event_conditioned self).
    change (predict_sample_event_conditioned (set_key self k))
      with (predict_sample_event_conditioned self).
    destruct (predict_sample_event_conditioned self).
    + change (predict_event_constraint
                (set_key (set_params self raw (params_ema self)) k))
        with (predict_event_constraint self).
      change (predict_event_constraint (set_key self k))
        with (predict_event_constraint self).
      destruct (predict_event_constraint self) as [o|]; [|reflexivity].
      cbn [Py.bind]. apply fmap_snd_bind.
    + unfold sample.
      change (params_ema (set_key (set_params self raw (params_ema self)) k))
        with (params_ema self).
      change (params_ema (set_key self k)) with (params_ema self).
      destruct (params_ema self) as [e|]; [|reflexivity].
      cbn [Py.getattr Py.bind]. apply fmap_snd_bind.
  - intro F. unfold predict_step. destruct (split env (key self)) as [k kp].
    cbn [fst snd].
    change (predict_sample_event_conditioned (set_key self k))
      with (predict_sample_event_conditioned self).
    rewrite F. unfold sample.
    change (params_ema (set_key self k)) with (params_ema self).
    destruct (params_ema self) as [e|]; reflexivity.
  - intro T. unfold predict_step. destruct (split env (key self)) as [k kp].
    cbn [fst snd].
    change (predict_sample_event_conditioned (set_key self k))
      with (predict_sample_event_conditioned self).
    rewrite T.
    change (predict_event_constraint (set_key self k))
      with (predict_event_constraint self).
    destruct (predict_event_constraint self) as [o|]; [|reflexivity].
    cbn [Py.bind]. eexists. split; [reflexivity|].
    change (params_ema (set_key self k)) with (params_ema self).
    destruct (params_ema self) as [e|].
    + intros x t. unfold score_closure. reflexivity.
    + intros x a d ds Ha. rewrite Ha. reflexivity.
Qed.

(** With the EMA relative error as monitor, [validation_step] samples with
    the averaged parameters under the second half of the split key and
    returns the mean relative error of the samples; without averaged
    parameters it raises AttributeError.  The value does not depend on the
    raw parameters, nor on the trainer's sanity check or callback metrics. *)
Theorem validation_step_ema_monitor (self : JaxLightning OptState) (batch : array)
    (batch_idx : nat) :
  ckpt_monitor (cfg self) = VAL_RELATIVE_ERROR_EMA ->
  match params_ema self with
  | None => validation_step env self batch batch_idx
            = Raise (AttributeError "params_ema")
  | Some e =>
      validation_step env self batch batch_idx
      = Py.bind
          (sde_sample env (diffusion self)
             (score_closure self (first_axis (shape batch)) (cond_fn self batch) e)
             (snd (split env (key self))) (shape batch)
             (time_step_count_sampling (cfg self)) false)
          (fun samples =>
             Py.bind (reduce_mean_bt (relative_error env batch samples))
               (fun v => Ok (set_key self (fst (split env (key self))), v)))
      /\ forall raw tr,
           Py.fmap snd (validation_step env
                          (set_trainer (set_params self raw (Some e)) tr)
                          batch batch_idx)
           = Py.fmap snd (validation_step env self batch batch_idx)
  end.
Proof.
  intro M. destruct (params_ema self) as [e|] eqn:E.
  - split.
    + unfold validation_step. destruct (split env (key self)) as [k kv]. cbn [fst snd].
      change (ckpt_monitor (cfg (set_key self k))) with (ckpt_monitor (cfg self)).
      rewrite M. change (params_ema (set_key self k)) with (params_ema self).
      rewrite E. reflexivity.
    + intros raw tr. unfold validation_step.
      change (key (set_trainer (set_params self raw (Some e)) tr)) with (key self).
      destruct (split env (key self)) as [k kv].
      change (ckpt_monitor (cfg (set_key (set_trainer (set_params self raw (Some e)) tr) k)))
        with (ckpt_monitor (cfg self)).
      change (ckpt_monitor (cfg (set_key self k))) with (ckpt_monitor (cfg self)).
      rewrite M. change (params_ema (set_key self k)) with (params_ema self).
      rewrite E. cbn [params_ema set_key set_params set_trainer Py.getattr Py.bind].
      unfold sample. cbn [Py.bind]. apply fmap_snd_bind2.
  - unfold validation_step. destruct (split env (key self)) as [k kv].
    change (ckpt_monitor (cfg (set_key self k))) with (ckpt_monitor (cfg self)).
    rewrite M. change (params_ema (set_key self k)) with (params_ema self).
    rewrite E. reflexivity.
Qed.

End PredictFacts.

Section LifecycleRuns.
Import Jnp PyTree Diffusion.
Open Scope string_scope.

(** The demo engine as constructed: training before setup is refused. *)
Lemma fresh_engine_demo :
  exists self,
    __init__ unit Demo.config (0%N, 0%N) Demo.loaders 1%R (fun _ => None) Demo.network
             false None Demo.process Demo.lightning = Ok self
    /\ training_step Demo.libs self Demo.batch 0 = Raise (AttributeError "params")
    /\ configure_optimizers Demo.libs self = Raise (AttributeError "params").
Proof.
  eexists. split; [reflexivity|].
  match goal with |- training_step _ ?s _ _ = _ /\ _ =>
    destruct (@fresh_engine_needs_setup unit Demo.libs Demo.config (0%N, 0%N)
                Demo.loaders 1%R (fun _ => None) Demo.network false None Demo.process
                Demo.lightning s eq_refl) as (R1 & R2 & _)
  end.
  split; [apply R1|exact R2].
Defined.

(** One training step of the demo engine counts the fourth global step. *)
Lemma training_step_frame_demo :
  exists self' out,
    training_step Demo.libs Demo.engine Demo.batch 0 = Ok (self', out)
    /\ global_step (trainer self') = 4%nat
    /\ out_monitors out = [("flow_loss", out_loss out)].
Proof.
  assert (K : is_ok (training_step Demo.libs Demo.engine Demo.batch 0) = true)
    by (vm_compute; reflexivity).
  destruct (training_step Demo.libs Demo.engine Demo.batch 0) as [[self' out]|] eqn:T;
    [|discriminate K].
  destruct (@training_step_frame unit Demo.libs Demo.engine Demo.batch 0 self' out T)
    as (_ & G & _ & _ & _ & _ & _ & _ & _ & _ & _ & _ & M & _).
  exists self', out. split; [reflexivity|]. split; [exact G|exact M].
Defined.

(** Validation of the engine that monitors the EMA relative error returns
    the mean relative error of its samples, whatever the raw parameters and
    the trainer are. *)
Lemma validation_ema_monitor_demo :
  ckpt_monitor (cfg DemoMonitors.engine) = VAL_RELATIVE_ERROR_EMA
  /\ exists v,
       Py.fmap snd (validation_step Demo.libs DemoMonitors.engine Demo.batch 0) = Ok v
       /\ Py.fmap snd (validation_step Demo.libs
                         (set_trainer
                            (set_params DemoMonitors.engine None (Some Demo.shadow))
                            (optimizers_step Demo.lightning))
                         Demo.batch 0)
          = Ok v.
Proof.
  split; [reflexivity|].
  assert (K : is_ok (validation_step Demo.libs DemoMonitors.engine Demo.batch 0) = true)
    by (vm_compute; reflexivity).
  destruct (validation_step Demo.libs DemoMonitors.engine Demo.batch 0)
    as [[self' v]|] eqn:V; [|discriminate K].
  exists v. split; [reflexivity|].
  rewrite (proj2 (@validation_step_ema_monitor unit Demo.libs DemoMonitors.engine
                    Demo.batch 0 eq_refl)
             None (optimizers_step Demo.lightning)).
  rewrite V. reflexivity.
Defined.

End LifecycleRuns.

(** ** The logging callback *)

Section LogFacts.
Import Jnp Diffusion LogStats LogSpec.
Open Scope string_scope.

Lemma log_run name v batch n rest calls :
  shape batch = n :: rest ->
  log name v batch calls = (Ok tt, (calls ++ [logged n name v])%list).
Proof. intro H. unfold log, len. rewrite H. reflexivity. Qed.

Lemma log_scalar_batch name v batch calls :
  shape batch = [] -> log name v batch calls = (Raise TypeError, calls).
Proof. intro H. unfold log, len. rewrite H. reflexivity. Qed.

Lemma for_each_logs (body : monitor_key * R -> L unit) (label : monitor_key -> string)
    batch n rest :
  shape batch = n :: rest ->
  (forall kv, body kv = log (label (fst kv)) (snd kv) batch) ->
  forall l calls,
    for_each l body calls
    = (Ok tt, (calls ++ List.map (fun kv => logged n (label (fst kv)) (snd kv)) l)%list).
Proof.
  intros H B. induction l as [|kv l IH]; intro calls; simpl.
  - unfold retL. rewrite app_nil_r. reflexivity.
  - unfold bindL. rewrite B, (@log_run _ _ batch n rest _ H), IH, <- app_assoc. reflexivity.
Qed.

Lemma train_batch_end_run (o : outputs) batch n rest calls :
  shape batch = n :: rest ->
  on_train_batch_end o batch calls
  = (Ok tt,
     (calls
      ++ logged n "train_loss" (outputs_loss o)
         :: logged n "train_loss_ema" (outputs_loss_ema o)
         :: List.map (fun kv => logged n (key_name (fst kv)) (snd kv))
              (outputs_monitors o)
      ++ List.map (fun kv => logged n (key_name (fst kv) ++ "_ema") (snd kv))
           (outputs_monitors_ema o))%list).
Proof.
  intro S. unfold on_train_batch_end, bindL.
  rewrite !(@log_run _ _ batch n rest _ S).
  rewrite (@for_each_logs _ key_name batch n rest S).
  - rewrite (@for_each_logs _ (fun k => key_name k ++ "_ema") batch n rest S).
    + rewrite <- !app_assoc. reflexivity.
    + intros [[k|c] v]; reflexivity.
  - intros [[k|c] v]; reflexivity.
Qed.

(** [on_train_batch_end] logs, in this order, "train_loss", "train_loss_ema",
    one entry per diagnostic under its key (the class name for a key that is
    no string), and one entry per EMA diagnostic under its key followed by
    "_ema"; every entry carries the leading size of the batch, on_epoch and
    prog_bar.  [on_validation_batch_end] logs the one entry "loss_val".  For
    a batch without axes both hooks raise TypeError before logging. *)
Theorem log_stats_entries (o : outputs) (loss_val : R) (batch : array)
    (calls : list log_call) :
  match shape batch with
  | [] =>
      on_train_batch_end o batch calls = (Raise TypeError, calls)
      /\ on_validation_batch_end loss_val batch calls = (Raise TypeError, calls)
  | n :: _ =>
      on_train_batch_end o batch calls
      = (Ok tt,
         (calls
          ++ logged n "train_loss" (outputs_loss o)
             :: logged n "train_loss_ema" (outputs_loss_ema o)
             :: List.map (fun kv => logged n (key_name (fst kv)) (snd kv))
                  (outputs_monitors o)
          ++ List.map (fun kv => logged n (key_name (fst kv) ++ "_ema") (snd kv))
               (outputs_monitors_ema o))%list)
      /\ on_validation_batch_end loss_val batch calls
         = (Ok tt, (calls ++ [logged n "loss_val" loss_val])%list)
  end.
Proof.
  destruct (shape batch) as [|n rest] eqn:S.
  - split.
    + unfold on_train_batch_end, bindL. rewrite (@log_scalar_batch _ _ batch _ S).
      reflexivity.
    + apply (@log_scalar_batch _ _ batch _ S).
  - split; [apply (@train_batch_end_run _ batch n rest _ S)|apply (@log_run _ _ batch n rest _ S)].
Qed.

End LogFacts.

Section LogAfterTraining.
Import Jnp Diffusion LogStats LogSpec.
Open Scope string_scope.

Variable OptState : Type.
Variable env : Env OptState.

Lemma loss_batch_has_axis (self : JaxLightning OptState) key x_data cond params r :
  Diffusion.loss env self key x_data cond params = Ok r ->
  exists n rest, shape x_data = n :: rest.
Proof.
  unfold Diffusion.loss, loss_draws. intro H.
  apply bind_ok in H. destruct H as ([t xt] & H & _).
  destruct (split env key) as [k kt].
  unfold shape0 in H. destruct (shape x_data) as [|n rest]; [discriminate|].
  eauto.
Qed.

(** After a successful [training_step], [on_train_batch_end] on its outputs
    logs exactly four entries: "train_loss" and "flow_loss" with the loss,
    "train_loss_ema" and "flow_loss_ema" with the EMA loss, each with the
    leading size of the batch. *)
Theorem training_step_then_log (self : JaxLightning OptState) batch batch_idx self' out
    (calls : list log_call) :
  training_step env self batch batch_idx = Ok (self', out) ->
  exists n,
    hd_error (shape batch) = Some n
    /\ on_train_batch_end (of_training_step out) batch calls
       = (Ok tt,
          (calls ++ [logged n "train_loss" (out_loss out);
                     logged n "train_loss_ema" (out_loss_ema out);
                     logged n "flow_loss" (out_loss out);
                     logged n "flow_loss_ema" (out_loss_ema out)])%list).
Proof.
  intro H. unfold training_step in H.
  destruct (split env (key self)) as [k kt].
  apply bind_ok in H. destruct H as (p & _ & H).
  apply bind_ok in H. destruct H as (e & _ & H).
  apply bind_ok in H. destruct H as (s & _ & H).
  apply bind_ok in H. destruct H as ([[[[l m] p'] e'] s'] & Hstep & H).
  apply bind_ok in H. destruct H as ([le me] & Hl & H).
  inversion H; subst self' out. clear H.
  destruct (step_inv _ _ _ _ _ _ _ _ Hstep) as (o & _ & L & _).
  rewrite (loss_monitors _ _ _ _ _ _ L), (loss_monitors _ _ _ _ _ _ Hl).
  destruct (loss_batch_has_axis _ _ _ _ _ L) as (n & rest & S).
  exists n. split; [rewrite S; reflexivity|].
  rewrite (@train_batch_end_run _ batch n rest _ S). reflexivity.
Qed.

End LogAfterTraining.

Section LogAfterTrainingRuns.
Import Jnp Diffusion LogStats LogSpec.
Open Scope string_scope.

(** The demonstration engine's training step followed by the logging hook. *)
Lemma training_step_then_log_demo :
  exists self' out n,
    training_step Demo.libs Demo.engine Demo.batch 0 = Ok (self', out)
    /\ hd_error (shape Demo.batch) = Some n
    /\ on_train_batch_end (of_training_step out) Demo.batch []
       = (Ok tt,
          [logged n "train_loss" (out_loss out);
           logged n "train_loss_ema" (out_loss_ema out);
           logged n "flow_loss" (out_loss out);
           logged n "flow_loss_ema" (out_loss_ema out)]).
Proof.
  assert (K : is_ok (training_step Demo.libs Demo.engine Demo.batch 0) = true)
    by (vm_compute; reflexivity).
  destruct (training_step Demo.libs Demo.engine Demo.batch 0) as [[self' out]|] eqn:T;
    [|discriminate K].
  destruct (@training_step_then_log unit Demo.libs Demo.engine Demo.batch 0 self' out [] T)
    as (n & H & L).
  exists self', out, n. split; [reflexivity|]. split; [exact H|exact L].
Defined.

End LogAfterTrainingRuns.
